(** * jelease: the webhook handler of the newreleases.io to Jira connector

    A shallow embedding of [main.go] (the [Release] type, [IssueSummary],
    [JiraIssue], [handlePostWebhook] and the configuration loading of
    [run]) and of [pkg/config/template.go] ([Template.Render]), together
    with the properties of the reconciliation the handler performs.

    The handler talks to three collaborators: the HTTP response writer,
    the logger and the Jira client.  Every call to one of them is
    recorded, in program order, in a trace; the answers of the Jira client
    are given by an oracle (a record of functions), as the handler calls
    each service at most once per request.  A nil pointer dereference
    ends the handler with a panic. *)

From Stdlib Require Import ZArith String Ascii.
From stdpp Require Import base option list strings gmap.

Set Warnings "-register-all".

Local Open Scope string_scope.
Local Open Scope Z_scope.
Local Open Scope list_scope.

(** ** Go's [time.Time], as far as [Before] looks at it *)

Module time.

(** A wall-clock instant without monotonic reading (what a timestamp
    parsed from JSON is): seconds since the epoch and nanoseconds within
    the second. *)
Record Time : Type := mkTime { sec : Z; nsec : Z }.

(** [var t time.Time]. *)
Definition zero : Time := mkTime 0 0.

(** [t.Before(u)]: [ts < us || ts == us && t.nsec() < u.nsec()]. *)
Definition Before (t u : Time) : bool :=
  (sec t <? sec u) || ((sec t =? sec u) && (nsec t <? nsec u)).

End time.

(** ** Go's [strings] and [fmt], as far as the program uses them *)

Module strings.

(** [strings.Join(elems, sep)]. *)
Fixpoint Join (elems : list string) (sep : string) : string :=
  match elems with
  | [] => ""
  | [e] => e
  | e :: rest => e +:+ sep +:+ Join rest sep
  end.

End strings.

Module fmt.

Section Sprintf.

(** [strconv.Quote], which renders a string operand of the verb [%q].
    It is a function of Go's Unicode tables and stays a parameter. *)
Variable Quote : string -> string.

(** One string operand under the verb [verb]: [%v] and [%s] print the
    string itself, [%q] its quoted form, another verb Go's bad-verb
    notice.  Flags, widths and the hexadecimal verbs are not modelled:
    the program uses none. *)
Definition operand (verb : ascii) (x : string) : string :=
  if (verb =? "v")%char || (verb =? "s")%char then x
  else if (verb =? "q")%char then Quote x
  else "%!" +:+ String verb ("(string=" +:+ x +:+ ")").

(** [fmt.Sprintf(format, a...)] on string operands. *)
Fixpoint Sprintf (format : string) (a : list string) : string :=
  match format with
  | EmptyString =>
      match a with
      | [] => ""
      | _ => "%!(EXTRA " +:+ strings.Join ((fun x => "string=" +:+ x) <$> a) ", " +:+ ")"
      end
  | String c rest =>
      if (c =? "%")%char then
        match rest with
        | EmptyString => "%!(NOVERB)"
        | String verb rest' =>
            if (verb =? "%")%char then String "%" (Sprintf rest' a)
            else
              match a with
              | [] => "%!" +:+ String verb ("(MISSING)" +:+ Sprintf rest' [])
              | x :: a' => operand verb x +:+ Sprintf rest' a'
              end
        end
      else String c (Sprintf rest a)
  end.

End Sprintf.

End fmt.

(** ** JSON values, as [encoding/json] scans them *)

Module json.

Inductive Value : Type :=
| Null
| Bool (b : bool)
| Number (literal : string)
| Str (s : string)
| Array (elems : list Value)
| Object (members : list (string * Value)).

(** ASCII upper-casing of one byte. *)
Definition upper (c : ascii) : ascii :=
  let n := N_of_ascii c in
  if ((97 <=? n) && (n <=? 122))%N then ascii_of_N (n - 32) else c.

(** [foldName]: the key under which the decoder looks a member name up
    when no field matches it exactly.  ASCII letters are upper-cased; the
    two runes outside ASCII whose simple case folding reaches an ASCII
    letter, U+017F (bytes 197 191) and U+212A (bytes 226 132 170), become
    [S] and [K].  Every other rune folds to a rune outside ASCII and its
    bytes are kept: the model agrees with Go's on whether a name folds to
    the folded name of an ASCII field. *)
Fixpoint foldName (s : string) : string :=
  match s with
  | EmptyString => EmptyString
  | String c rest =>
      match rest with
      | String c2 rest2 =>
          if ((c =? "197") && (c2 =? "191"))%char then String "S" (foldName rest2)
          else
            match rest2 with
            | String c3 rest3 =>
                if ((c =? "226") && (c2 =? "132") && (c3 =? "170"))%char
                then String "K" (foldName rest3)
                else String (upper c) (foldName rest)
            | EmptyString => String (upper c) (foldName rest)
            end
      | EmptyString => String (upper c) (foldName rest)
      end
  end.

(** Whether the member name [key] selects the struct field tagged
    [name]: exactly, or else after folding. *)
Definition selects (key name : string) : bool :=
  String.eqb key name || String.eqb (foldName key) (foldName name).

End json.

(** ** Go's [io] and [net/http], as far as the handler uses them *)

(** A Go [error], by its message. *)
Abbreviation error := string (only parsing).

Module io.

(** A reader, by what reading it to the end yields. *)
Record Reader : Type := mkReader { data : string; err : option error }.

(** [io.ReadAll(r)]. *)
Definition ReadAll (r : Reader) : string * option error := (data r, err r).

End io.

Module http.

Definition MethodPost : string := "POST".
Definition StatusOK : Z := 200.
Definition StatusBadRequest : Z := 400.
Definition StatusMethodNotAllowed : Z := 405.
Definition StatusInternalServerError : Z := 500.

(** [http.StatusText(code)], for the codes above; Go answers the empty
    string for a code it does not know. *)
Definition StatusText (code : Z) : string :=
  if code =? 200 then "OK"
  else if code =? 400 then "Bad Request"
  else if code =? 405 then "Method Not Allowed"
  else if code =? 500 then "Internal Server Error"
  else "".

(** An inbound request: its method and its body.  The body is the first
    JSON value the decoder scans on the stream, [None] when the stream is
    empty or is not well-formed JSON. *)
Record Request : Type := mkRequest { Method : string; Body : option json.Value }.

End http.

(** ** The go-jira client *)

Module jira.

(** [jira.IssueFields], the fields the program reads or writes.
    [Project.Key] and [Type.Name] are fields of embedded structs;
    [Status] is a pointer to a struct with a [Name]. *)
Record IssueFields : Type := mkIssueFields {
  Description : string;
  Project_Key : string;
  Type_Name : string;
  Status : option string;
  Labels : list string;
  Summary : string;
  Created : time.Time
}.

(** [jira.Issue].  [Fields] is a pointer in go-jira; an issue that the
    tracker's search returns, and one that [JiraIssue] builds, carries its
    fields, and the record holds them directly. *)
Record Issue : Type := mkIssue { ID : string; Key : string; Fields : IssueFields }.

(** [jira.Response]: the HTTP response of the tracker, of which the
    handler reads the body. *)
Record Response : Type := mkResponse { Body : io.Reader }.

(** The three services of the client the handler calls, as Go types them:
    [Issue.Search] answers a slice of issues, a pointer to the response
    and an error; [Issue.Create] a pointer to the new issue, a pointer to
    the response and an error; [Issue.UpdateIssue] a pointer to the
    response and an error.  A pointer that is nil is [None]. *)
Record Client : Type := mkClient {
  Search : string -> list Issue * option Response * option error;
  Create : Issue -> option Issue * option Response * option error;
  UpdateIssue : string -> json.Value -> option Response * option error
}.

End jira.

(** ** The handler's effects *)

(** An operand of a log line. *)
Inductive LogArg : Type :=
| AStr (s : string)
| AInt (n : Z)
| AErr (e : error)
| ABytes (b : string)
| ABody (b : option json.Value).

(** One call to a collaborator. *)
Inductive Event : Type :=
| Ev_http_Error (msg : string) (code : Z)
| Ev_Printf (format : string) (a : list LogArg)
| Ev_Search (jql : string)
| Ev_Create (issue : jira.Issue)
| Ev_UpdateIssue (issueID : string) (data : json.Value).

(** How a computation ends: it returns, or it panics. *)
Inductive Outcome (A : Type) : Type :=
| Done (a : A)
| Panic (msg : string).
Arguments Done {A} a.
Arguments Panic {A} msg.

(** A computation of the handler: the calls it made, in order, and how
    it ended. *)
Definition Handler (A : Type) : Type := list Event * Outcome A.

Definition ret {A} (a : A) : Handler A := ([], Done a).

Definition bind {A B} (m : Handler A) (k : A -> Handler B) : Handler B :=
  match m with
  | (t, Done a) => let '(t', o) := k a in ((t ++ t')%list, o)
  | (t, Panic msg) => (t, Panic msg)
  end.

Notation "x <- m ;; k" := (bind m (fun x => k))
  (at level 100, m at next level, right associativity).
Notation "m ;;; k" := (bind m (fun _ => k))
  (at level 100, right associativity).

Definition emit (e : Event) : Handler unit := ([e], Done tt).

(** Following a pointer: a nil pointer panics. *)
Definition deref {A} (p : option A) : Handler A :=
  match p with
  | Some a => ret a
  | None => ([], Panic "invalid memory address or nil pointer dereference")
  end.

Definition http_Error (msg : string) (code : Z) : Handler unit :=
  emit (Ev_http_Error msg code).

Definition logger_Printf (format : string) (a : list LogArg) : Handler unit :=
  emit (Ev_Printf format a).

(** A log line as an event. *)
Definition logged (line : string * list LogArg) : Event := Ev_Printf line.1 line.2.

(** The trace of a computation and the calls of each kind in it. *)
Definition trace {A} (h : Handler A) : list Event := h.1.

Definition outcome {A} (h : Handler A) : Outcome A := h.2.

Definition searches (t : list Event) : list string :=
  omap (fun e => match e with Ev_Search q => Some q | _ => None end) t.

Definition creates (t : list Event) : list jira.Issue :=
  omap (fun e => match e with Ev_Create i => Some i | _ => None end) t.

Definition updates (t : list Event) : list (string * json.Value) :=
  omap (fun e => match e with Ev_UpdateIssue k d => Some (k, d) | _ => None end) t.

Definition errors (t : list Event) : list Z :=
  omap (fun e => match e with Ev_http_Error _ c => Some c | _ => None end) t.

(** The status the client of the webhook receives: the first status
    written, 200 when the handler returns without writing one, and none
    when the handler panics (the server then drops the connection). *)
Definition status (h : Handler unit) : option Z :=
  match outcome h with
  | Done _ => Some (default http.StatusOK (head (errors (trace h))))
  | Panic _ => None
  end.

(** ** [main.go] *)

(** [Config]: the configuration values from the environment. *)
Record Config : Type := mkConfig {
  Port : string;
  JiraUrl : string;
  JiraUser : string;
  JiraToken : string;
  Project : string;
  DefaultStatus : string;
  AddLabels : list string
}.

(** [Release]: the object unmarshalled from the webhook. *)
Module Release.
Record t : Type := mk { Provider : string; Project : string; Version : string }.
Definition zero : t := mk "" "" "".
End Release.

(** The line feed that Go writes as a backslash followed by n. *)
Definition LF : string := String "010" EmptyString.

(** [json.NewDecoder(r.Body).Decode(&release)] for the struct [Release]
    and its three tags. *)
Module decoder.

(** Storing a member's value into a string field: a JSON string is
    stored, null leaves the field as it is, every other value is a type
    error and leaves the field as it is. *)
Definition store (field : string) (v : json.Value) : string * option error :=
  match v with
  | json.Str s => (s, None)
  | json.Null => (field, None)
  | json.Bool _ => (field, Some "json: cannot unmarshal bool into Go struct field of type string")
  | json.Number _ => (field, Some "json: cannot unmarshal number into Go struct field of type string")
  | json.Array _ => (field, Some "json: cannot unmarshal array into Go struct field of type string")
  | json.Object _ => (field, Some "json: cannot unmarshal object into Go struct field of type string")
  end.

(** The decoder keeps the first type error and goes on. *)
Definition saveError (saved e : option error) : option error :=
  match saved with
  | Some _ => saved
  | None => e
  end.

(** One member of the object: the field its name selects is stored, a
    name that selects no field is skipped. *)
Definition member (st : Release.t * option error) (kv : string * json.Value)
  : Release.t * option error :=
  let '(release, saved) := st in
  let '(key, v) := kv in
  if json.selects key "provider" then
    let '(s, e) := store (Release.Provider release) v in
    (Release.mk s (Release.Project release) (Release.Version release), saveError saved e)
  else if json.selects key "project" then
    let '(s, e) := store (Release.Project release) v in
    (Release.mk (Release.Provider release) s (Release.Version release), saveError saved e)
  else if json.selects key "version" then
    let '(s, e) := store (Release.Version release) v in
    (Release.mk (Release.Provider release) (Release.Project release) s, saveError saved e)
  else (release, saved).

(** [Decode]: an object is stored member by member, null leaves the
    struct as it is, any other value is a type error, and a stream with
    no well-formed value is a syntax error. *)
Definition Decode (body : option json.Value) (release : Release.t)
  : Release.t * option error :=
  match body with
  | None => (release, Some "invalid character looking for beginning of value")
  | Some json.Null => (release, None)
  | Some (json.Object members) => foldl member (release, None) members
  | Some (json.Bool _) => (release, Some "json: cannot unmarshal bool into Go value of type main.Release")
  | Some (json.Number _) => (release, Some "json: cannot unmarshal number into Go value of type main.Release")
  | Some (json.Str _) => (release, Some "json: cannot unmarshal string into Go value of type main.Release")
  | Some (json.Array _) => (release, Some "json: cannot unmarshal array into Go value of type main.Release")
  end.


Definition selectsField (key : string) : bool :=
  json.selects key "provider" || json.selects key "project" || json.selects key "version".


End decoder.

(** The description every issue of [JiraIssue] carries. *)
Definition generatedDescription : string :=
  "Update issue generated by https://github.2rioffice.com/platform/jelease using newreleases.io.".

(** The [for i, existingIssue := range existingIssues] loop. *)
Fixpoint range {S A : Type} (body : S -> nat -> A -> S) (i : nat) (xs : list A) (s : S) : S :=
  match xs with
  | [] => s
  | x :: xs' => range body (Datatypes.S i) xs' (body s i x)
  end.

(** [var oldestExistingIssue jira.Issue]. *)
Definition zeroIssue : jira.Issue :=
  jira.mkIssue "" "" (jira.mkIssueFields "" "" "" None [] "" time.zero).

(** One turn of the loop over the existing issues, on the pair of
    [oldestExistingIssue] and [duplicateIssueKeys]. *)
Definition oldestStep (st : jira.Issue * list string) (i : nat) (existingIssue : jira.Issue)
  : jira.Issue * list string :=
  let '(oldestExistingIssue, duplicateIssueKeys) := st in
  if (i =? 0)%nat then (existingIssue, duplicateIssueKeys)
  else
    let tCurrent := jira.Created (jira.Fields existingIssue) in
    let tOldest := jira.Created (jira.Fields oldestExistingIssue) in
    if time.Before tCurrent tOldest
    then (existingIssue, (duplicateIssueKeys ++ [jira.Key oldestExistingIssue])%list)
    else (oldestExistingIssue, (duplicateIssueKeys ++ [jira.Key existingIssue])%list).

(** The whole loop, from the zero issue and the nil slice. *)
Definition oldestOf (existingIssues : list jira.Issue) : jira.Issue * list string :=
  range oldestStep 0%nat existingIssues (zeroIssue, []).

(** The [updates] map of the handler, as it is marshalled: the update of
    one field, [summary], by one operation, [set]. *)
Definition summaryUpdate (summary : string) : json.Value :=
  json.Object
    [("update",
      json.Object [("summary", json.Array [json.Object [("set", json.Str summary)]])])].

Section Program.

(** The package variables [config] and [jiraClient], and [strconv.Quote]
    behind the verb [%q]. *)
Variable Quote : string -> string.
Variable config : Config.
Variable jiraClient : jira.Client.

(** [release.IssueSummary()]. *)
Definition IssueSummary (release : Release.t) : string :=
  fmt.Sprintf Quote "Update %v to version %v"
    [Release.Project release; Release.Version release].

(** [release.JiraIssue()]. *)
Definition JiraIssue (release : Release.t) : jira.Issue :=
  let labels := (AddLabels config ++ [Release.Project release])%list in
  jira.mkIssue "" ""
    {| jira.Description := generatedDescription;
       jira.Project_Key := Project config;
       jira.Type_Name := "Task";
       jira.Status := Some (DefaultStatus config);
       jira.Labels := labels;
       jira.Summary := IssueSummary release;
       jira.Created := time.zero |}.

Definition Issue_Search (jql : string) :=
  emit (Ev_Search jql) ;;; ret (jira.Search jiraClient jql).

Definition Issue_Create (issue : jira.Issue) :=
  emit (Ev_Create issue) ;;; ret (jira.Create jiraClient issue).

Definition Issue_UpdateIssue (jiraID : string) (data : json.Value) :=
  emit (Ev_UpdateIssue jiraID data) ;;; ret (jira.UpdateIssue jiraClient jiraID data).

(** The query for the existing update tickets. *)
Definition existingIssuesQuery (release : Release.t) : string :=
  fmt.Sprintf Quote "status = %q and labels = %q"
    [DefaultStatus config; Release.Project release].

(** Reading the body of an error response and logging it, as the three
    error branches do.  The branches differ in the last operand of the
    log line: [onReadErr] gives it when reading the body failed, [onBody]
    when it succeeded. *)
Definition logErrorResponse (errCtx : string) (e : error) (resp : option jira.Response)
    (onReadErr : string -> error -> LogArg) (onBody : string -> LogArg) : Handler unit :=
  r <- deref resp ;;
  let '(body, readErr) := io.ReadAll (jira.Body r) in
  match readErr with
  | Some readErr =>
      logger_Printf "%v: %v. Failed to decode response body: %v"
        [AErr errCtx; AErr e; onReadErr body readErr]
  | None =>
      logger_Printf "%v: %v. Response body: %v" [AErr errCtx; AErr e; onBody body]
  end.

(** The branch of the handler that creates the issue. *)
Definition createIssue (release : Release.t) : Handler unit :=
  let i := JiraIssue release in
  x <- Issue_Create i ;;
  let '(newIssue, response, err) := x in
  match err with
  | Some e =>
      logErrorResponse "error response from Jira when creating issue" e response
        (fun _ readErr => AErr readErr) AStr ;;;
      http_Error (http.StatusText http.StatusInternalServerError) http.StatusInternalServerError
  | None => ret tt
  end ;;;
  newIssue <- deref newIssue ;;
  logger_Printf ("Created issue %v" +:+ LF) [AStr (jira.ID newIssue)].

(** The branch of the handler that updates the oldest existing issue. *)
Definition updateOldest (release : Release.t) (existingIssues : list jira.Issue)
  : Handler unit :=
  let '(oldestExistingIssue, duplicateIssueKeys) := oldestOf existingIssues in
  (if (0 <? length duplicateIssueKeys)%nat then
     logger_Printf
       "Ignoring the following possible duplicate issues in favor of older issue %v: %v"
       [AStr (jira.Key oldestExistingIssue); AStr (strings.Join duplicateIssueKeys ", ")]
   else ret tt) ;;;
  let previousSummary := jira.Summary (jira.Fields oldestExistingIssue) in
  let updates := summaryUpdate (IssueSummary release) in
  x <- Issue_UpdateIssue (jira.ID oldestExistingIssue) updates ;;
  let '(resp, err) := x in
  match err with
  | Some e =>
      logErrorResponse "error response from Jira when updating issue" e resp
        (fun _ readErr => AErr readErr) ABytes ;;;
      http_Error (http.StatusText http.StatusInternalServerError) http.StatusInternalServerError
  | None =>
      logger_Printf "Updated issue summary from %q to %q"
        [AStr previousSummary; AStr (IssueSummary release)]
  end.

(** What the handler does with a decoded release. *)
Definition reconcile (release : Release.t) : Handler unit :=
  x <- Issue_Search (existingIssuesQuery release) ;;
  let '(existingIssues, resp, err) := x in
  match err with
  | Some e =>
      logErrorResponse "error response from Jira when searching previous issues" e resp
        (fun body _ => AStr body) AStr ;;;
      http_Error (http.StatusText http.StatusInternalServerError) http.StatusInternalServerError
  | None =>
      if (length existingIssues =? 0)%nat then createIssue release
      else updateOldest release existingIssues
  end.

(** [handlePostWebhook]. *)
Definition handlePostWebhook (r : http.Request) : Handler unit :=
  if negb (String.eqb (http.Method r) http.MethodPost) then
    http_Error (http.StatusText http.StatusMethodNotAllowed) http.StatusMethodNotAllowed ;;;
    logger_Printf "Rejected request because: %v %v. Attempted method: %v"
      [AInt http.StatusMethodNotAllowed;
       AStr (http.StatusText http.StatusMethodNotAllowed);
       AStr (http.Method r)]
  else
    let '(release, err) := decoder.Decode (http.Body r) Release.zero in
    match err with
    | Some e =>
        http_Error (http.StatusText http.StatusBadRequest) http.StatusBadRequest ;;;
        logger_Printf
          ("Couldn't decode request body to json: %v" +:+ LF +:+ " error: %v" +:+ LF)
          [ABody (http.Body r); AErr e]
    | None => reconcile release
    end.

End Program.

(** ** The configuration loading of [run] *)

Module envconfig.

(** What [Process] finds for one field in [env], the environment of
    the process once [godotenv.Load] has added the file of variables: the
    variable with the prefix, else the variable named by the tag alone,
    else the default; a required field with none of them is an error,
    another one is left as it is ([None]). *)
Definition gather (env : gmap string string) (tag def : string) (required : bool)
  : error + option string :=
  let found :=
    match env !! ("JELEASE_" +:+ tag) with
    | Some v => Some v
    | None => env !! tag
    end in
  match found with
  | Some v => inr (Some v)
  | None =>
      if negb (String.eqb def EmptyString) then inr (Some def)
      else if required then inl ("required key " +:+ tag +:+ " missing value")
      else inr None
  end.

Definition andThen {A B} (x : error + A) (k : A -> error + B) : error + B :=
  match x with
  | inl e => inl e
  | inr a => k a
  end.

Section Process.

(** How [Process] fills a slice of strings from one value (it splits a
    value that is not blank at the commas). *)
Variable splitList : string -> list string.

(** [envconfig.Process(prefix, &config)] for the prefix [jelease], on
    the zero [Config]: the fields in the order of the struct, the first
    error returned. *)
Definition Process (env : gmap string string) : error + Config :=
  andThen (gather env "PORT" "8080" false) (fun port =>
  andThen (gather env "JIRA_URL" EmptyString true) (fun jiraUrl =>
  andThen (gather env "JIRA_USER" EmptyString true) (fun jiraUser =>
  andThen (gather env "JIRA_TOKEN" EmptyString true) (fun jiraToken =>
  andThen (gather env "PROJECT" EmptyString true) (fun project =>
  andThen (gather env "DEFAULT_STATUS" EmptyString true) (fun defaultStatus =>
  andThen (gather env "ADD_LABELS" EmptyString false) (fun addLabels =>
  inr {| Port := default EmptyString port;
         JiraUrl := default EmptyString jiraUrl;
         JiraUser := default EmptyString jiraUser;
         JiraToken := default EmptyString jiraToken;
         Project := default EmptyString project;
         DefaultStatus := default EmptyString defaultStatus;
         AddLabels := default [] (splitList <$> addLabels) |}))))))).

End Process.

End envconfig.

(** ** [pkg/config/template.go] *)

Module template.

Section Render.

(** [text/template]: the parsed template and its [Execute], which writes
    to the buffer and may stop with an error. *)
Variable Template : Type.
Variable Data : Type.
Variable Execute : Template -> Data -> string * option error.

(** [t.Render(data)]: the buffer when the execution succeeds, the empty
    string and the error otherwise. *)
Definition Render (t : Template) (data : Data) : string * option error :=
  let '(buf, err) := Execute t data in
  match err with
  | Some e => (EmptyString, Some e)
  | None => (buf, None)
  end.

End Render.

(** A fragment of [text/template], for the examples: a template is a
    sequence of text and of field actions on a release. *)
Inductive Node : Type :=
| TextNode (text : string)
| FieldNode (name : string).

Definition evalField (name : string) (release : Release.t) : option string :=
  if String.eqb name "Provider" then Some (Release.Provider release)
  else if String.eqb name "Project" then Some (Release.Project release)
  else if String.eqb name "Version" then Some (Release.Version release)
  else None.

Fixpoint Execute (t : list Node) (release : Release.t) : string * option error :=
  match t with
  | [] => (EmptyString, None)
  | TextNode text :: t' =>
      let '(buf, err) := Execute t' release in (text +:+ buf, err)
  | FieldNode name :: t' =>
      match evalField name release with
      | Some v => let '(buf, err) := Execute t' release in (v +:+ buf, err)
      | None => (EmptyString, Some ("can't evaluate field " +:+ name +:+ " in type main.Release"))
      end
  end.

End template.

(** ** Parsing the fragment of [text/template] *)

Module texttemplate.

Definition flush (acc : string) (t : list template.Node) : list template.Node :=
  if String.eqb acc EmptyString then t else template.TextNode acc :: t.

Definition onNodes (f : list template.Node -> list template.Node)
    (x : error + list template.Node) : error + list template.Node :=
  match x with
  | inl e => inl e
  | inr t => inr (f t)
  end.

(** The text of a template of the fragment: text, and actions written as
    two opening braces, a dot, the name of a field and two closing
    braces.  [inAction] tells whether an action is open, [acc] holds the
    text or the name read so far.  An action of another form is outside
    the fragment and is refused. *)
Fixpoint scan (s : string) (inAction : bool) (acc : string) : error + list template.Node :=
  match s with
  | EmptyString =>
      if inAction then inl "unclosed action" else inr (flush acc [])
  | String c rest =>
      if inAction then
        match rest with
        | String c2 rest2 =>
            if ((c =? "}") && (c2 =? "}"))%char
            then onNodes (cons (template.FieldNode acc)) (scan rest2 false EmptyString)
            else scan rest true (acc +:+ String c EmptyString)
        | EmptyString => inl "unclosed action"
        end
      else
        match rest with
        | String c2 (String c3 rest3) =>
            if ((c =? "{") && (c2 =? "{"))%char then
              if (c3 =? ".")%char
              then onNodes (flush acc) (scan rest3 true EmptyString)
              else inl "action outside the fragment"
            else scan rest false (acc +:+ String c EmptyString)
        | _ => scan rest false (acc +:+ String c EmptyString)
        end
  end.

(** [Parse] on the text of a template of the fragment. *)
Definition Parse (text : string) : error + list template.Node := scan text false EmptyString.

End texttemplate.

(** ** The search result with the pointer to the fields *)

(** go-jira types the fields of an issue as a pointer, which the handler
    follows without a check.  [raw.Issue] is the issue with that
    pointer, and the definitions below are the handler on a search that
    returns such issues; on issues that carry their fields it is the
    handler above. *)
Module raw.

Record Issue : Type := mkIssue {
  ID : string;
  Key : string;
  Fields : option jira.IssueFields
}.

(** [var oldestExistingIssue jira.Issue]: the pointer is nil. *)
Definition zero : Issue := mkIssue EmptyString EmptyString None.

(** An issue that carries its fields. *)
Definition ofIssue (i : jira.Issue) : Issue :=
  mkIssue (jira.ID i) (jira.Key i) (Some (jira.Fields i)).

End raw.

(** The [range] loop with a body that may panic. *)
Fixpoint rangeM {S A : Type} (body : S -> nat -> A -> Handler S) (i : nat) (xs : list A)
    (s : S) : Handler S :=
  match xs with
  | [] => ret s
  | x :: xs' => s' <- body s i x ;; rangeM body (Datatypes.S i) xs' s'
  end.

(** One turn of the loop over the existing issues: the fields of the
    current issue are read first, then those of the oldest one. *)
Definition oldestStepRaw (st : raw.Issue * list string) (i : nat) (existingIssue : raw.Issue)
  : Handler (raw.Issue * list string) :=
  let '(oldestExistingIssue, duplicateIssueKeys) := st in
  if (i =? 0)%nat then ret (existingIssue, duplicateIssueKeys)
  else
    current <- deref (raw.Fields existingIssue) ;;
    oldest <- deref (raw.Fields oldestExistingIssue) ;;
    let tCurrent := jira.Created current in
    let tOldest := jira.Created oldest in
    if time.Before tCurrent tOldest
    then ret (existingIssue, duplicateIssueKeys ++ [raw.Key oldestExistingIssue])
    else ret (oldestExistingIssue, duplicateIssueKeys ++ [raw.Key existingIssue]).

Definition oldestOfRaw (existingIssues : list raw.Issue) : Handler (raw.Issue * list string) :=
  rangeM oldestStepRaw 0%nat existingIssues (raw.zero, []).

Section RawProgram.

Variable Quote : string -> string.
Variable config : Config.
Variable jiraClient : jira.Client.

(** [jiraClient.Issue.Search] with the issues as go-jira types them. *)
Variable Search : string -> list raw.Issue * option jira.Response * option error.

Definition Issue_SearchRaw (jql : string) :=
  emit (Ev_Search jql) ;;; ret (Search jql).

(** The branch of the handler that updates the oldest existing issue. *)
Definition updateOldestRaw (release : Release.t) (existingIssues : list raw.Issue)
  : Handler unit :=
  st <- oldestOfRaw existingIssues ;;
  let '(oldestExistingIssue, duplicateIssueKeys) := st in
  (if (0 <? length duplicateIssueKeys)%nat then
     logger_Printf
       "Ignoring the following possible duplicate issues in favor of older issue %v: %v"
       [AStr (raw.Key oldestExistingIssue); AStr (strings.Join duplicateIssueKeys ", ")]
   else ret tt) ;;;
  fields <- deref (raw.Fields oldestExistingIssue) ;;
  let previousSummary := jira.Summary fields in
  let updates := summaryUpdate (IssueSummary Quote release) in
  x <- Issue_UpdateIssue jiraClient (raw.ID oldestExistingIssue) updates ;;
  let '(resp, err) := x in
  match err with
  | Some e =>
      logErrorResponse "error response from Jira when updating issue" e resp
        (fun _ readErr => AErr readErr) ABytes ;;;
      http_Error (http.StatusText http.StatusInternalServerError) http.StatusInternalServerError
  | None =>
      logger_Printf "Updated issue summary from %q to %q"
        [AStr previousSummary; AStr (IssueSummary Quote release)]
  end.

(** What the handler does with a decoded release. *)
Definition reconcileRaw (release : Release.t) : Handler unit :=
  x <- Issue_SearchRaw (existingIssuesQuery Quote config release) ;;
  let '(existingIssues, resp, err) := x in
  match err with
  | Some e =>
      logErrorResponse "error response from Jira when searching previous issues" e resp
        (fun body _ => AStr body) AStr ;;;
      http_Error (http.StatusText http.StatusInternalServerError) http.StatusInternalServerError
  | None =>
      if (length existingIssues =? 0)%nat then createIssue Quote config jiraClient release
      else updateOldestRaw release existingIssues
  end.

(** [handlePostWebhook] on such a search. *)
Definition handlePostWebhookRaw (r : http.Request) : Handler unit :=
  if negb (String.eqb (http.Method r) http.MethodPost) then
    http_Error (http.StatusText http.StatusMethodNotAllowed) http.StatusMethodNotAllowed ;;;
    logger_Printf "Rejected request because: %v %v. Attempted method: %v"
      [AInt http.StatusMethodNotAllowed;
       AStr (http.StatusText http.StatusMethodNotAllowed);
       AStr (http.Method r)]
  else
    let '(release, err) := decoder.Decode (http.Body r) Release.zero in
    match err with
    | Some e =>
        http_Error (http.StatusText http.StatusBadRequest) http.StatusBadRequest ;;;
        logger_Printf
          ("Couldn't decode request body to json: %v" +:+ LF +:+ " error: %v" +:+ LF)
          [ABody (http.Body r); AErr e]
    | None => reconcileRaw release
    end.

End RawProgram.

(** The search of a client, with every issue carrying its fields. *)
Definition searchOf (jiraClient : jira.Client) (jql : string)
  : list raw.Issue * option jira.Response * option error :=
  let '(existingIssues, resp, err) := jira.Search jiraClient jql in
  (raw.ofIssue <$> existingIssues, resp, err).

(** ** [run]: the start of the program *)

(** The format of [fmt.Errorf] as [fmt.Sprintf] reads it: on an error
    operand the verb [%w] prints what [%v] prints. *)
Fixpoint wrapVerbs (format : string) : string :=
  match format with
  | EmptyString => EmptyString
  | String c rest =>
      if (c =? "%")%char then
        match rest with
        | EmptyString => String c EmptyString
        | String verb rest' =>
            String c (String (if (verb =? "w")%char then "v"%char else verb) (wrapVerbs rest'))
        end
      else String c (wrapVerbs rest)
  end.

Module startup.

(** An entry of [jira.ProjectList] and a [jira.Status], by the field the
    checks read. *)
Record JiraProject : Type := mkProject { Key : string }.
Record JiraStatus : Type := mkStatus { Name : string }.

(** The client that [jira.NewClient] returns, by what its two listing
    services answer: [Project.GetList] a pointer to the list, a pointer
    to the response and an error, [Status.GetAllStatuses] a slice, a
    pointer to the response and an error. *)
Record Client : Type := mkClient {
  GetList : option (list JiraProject) * option jira.Response * option error;
  GetAllStatuses : list JiraStatus * option jira.Response * option error
}.

(** What the program finds when it starts: the error of
    [godotenv.Load], the environment after it, [jira.NewClient] on the
    user, the token and the URL, and the error [http.ListenAndServe]
    returns for an address once the server stops. *)
Record World : Type := mkWorld {
  dotenv : option error;
  environ : gmap string string;
  NewClient : string -> string -> string -> error + Client;
  ListenAndServe : string -> error
}.

(** The two handlers that [serveHTTP] registers. *)
Inductive Route : Type :=
| handlePostWebhook_
| handleGetRoot_.

(** One call of [run] to a collaborator. *)
Inductive Event : Type :=
| Ev_Println (line : string)
| Ev_Printf (format : string) (a : list string)
| Ev_NewClient (user token url : string)
| Ev_GetList
| Ev_GetAllStatuses
| Ev_HandleFunc (pattern : string) (handler : Route)
| Ev_ListenAndServe (addr : string).

(** A computation of [run]: its calls, in order, and how it ended. *)
Definition Run (A : Type) : Type := list Event * Outcome A.

Definition ret {A} (a : A) : Run A := ([], Done a).

Definition bind {A B} (m : Run A) (k : A -> Run B) : Run B :=
  match m with
  | (t, Done a) => let '(t', o) := k a in (t ++ t', o)
  | (t, Panic msg) => (t, Panic msg)
  end.

Definition emit (e : Event) : Run unit := ([e], Done tt).

Definition deref {A} (p : option A) : Run A :=
  match p with
  | Some a => ret a
  | None => ([], Panic "invalid memory address or nil pointer dereference")
  end.

Notation "x <~ m ;; k" := (bind m (fun x => k))
  (at level 100, m at next level, right associativity).
Notation "m ;;~ k" := (bind m (fun _ => k))
  (at level 100, right associativity).

Section Run.

Variable Quote : string -> string.
Variable splitList : string -> list string.

(** [fmt.Errorf(format, a...)], by the message of the error. *)
Definition Errorf (format : string) (a : list string) : error :=
  fmt.Sprintf Quote (wrapVerbs format) a.

(** The error of a listing that failed: the body of the response is
    read, and it or the error of reading it closes the message. *)
Definition responseError (errCtx : string) (e : error) (response : option jira.Response)
  : Run error :=
  r <~ deref response ;;
  let '(body, readErr) := io.ReadAll (jira.Body r) in
  match readErr with
  | Some readErr =>
      ret (Errorf "%v: %w. Failed to decode response body: %v" [errCtx; e; readErr])
  | None => ret (Errorf "%v: %w. Response body: %v" [errCtx; e; body])
  end.

(** The closure [projectExists]. *)
Definition projectExists (config : Config) (jiraClient : Client) : Run (option error) :=
  emit Ev_GetList ;;~
  let '(allProjects, response, err) := GetList jiraClient in
  match err with
  | Some e =>
      msg <~ responseError "error response from Jira when retrieving project list" e response ;;
      ret (Some msg)
  | None =>
      projects <~ deref allProjects ;;
      if existsb (fun project => String.eqb (Key project) (Project config)) projects
      then ret None
      else ret (Some (Errorf "project %v does not exist on your Jira server" [Project config]))
  end.

(** The closure [statusExists]. *)
Definition statusExists (config : Config) (jiraClient : Client) : Run (option error) :=
  emit Ev_GetAllStatuses ;;~
  let '(allStatuses, response, err) := GetAllStatuses jiraClient in
  match err with
  | Some e =>
      msg <~ responseError "error response from Jira when retrieving status list: %+v" e
               response ;;
      ret (Some msg)
  | None =>
      if existsb (fun status => String.eqb (Name status) (DefaultStatus config)) allStatuses
      then ret None
      else ret (Some (Errorf "status %v does not exist on your Jira server"
                        [DefaultStatus config]))
  end.

(** The closure [serveHTTP]. *)
Definition serveHTTP (w : World) (config : Config) : Run (option error) :=
  emit (Ev_HandleFunc "/webhook" handlePostWebhook_) ;;~
  emit (Ev_HandleFunc "/" handleGetRoot_) ;;~
  emit (Ev_Printf ("Listening on port %v" +:+ LF) [Port config]) ;;~
  let addr := fmt.Sprintf Quote ":%v" [Port config] in
  emit (Ev_ListenAndServe addr) ;;~
  ret (Some (ListenAndServe w addr)).

(** The closure [configSetup]: the error, or the configuration and the
    client it leaves in the package variables. *)
Definition configSetup (w : World) : Run (error + Config * Client) :=
  match dotenv w with
  | Some _ => emit (Ev_Println "No .env file found.")
  | None => ret tt
  end ;;~
  match envconfig.Process splitList (environ w) with
  | inl err => ret (inl err)
  | inr config =>
      emit (Ev_Printf ("Jira URL: %v" +:+ LF) [JiraUrl config]) ;;~
      emit (Ev_NewClient (JiraUser config) (JiraToken config) (JiraUrl config)) ;;~
      match NewClient w (JiraUser config) (JiraToken config) (JiraUrl config) with
      | inl err => ret (inl (Errorf "failed to create jira client: %w" [err]))
      | inr jiraClient => ret (inr (config, jiraClient))
      end
  end.

(** [run]. *)
Definition run (w : World) : Run (option error) :=
  setup <~ configSetup w ;;
  match setup with
  | inl err => ret (Some (Errorf "error in config setup: %w" [err]))
  | inr (config, jiraClient) =>
      err <~ projectExists config jiraClient ;;
      match err with
      | Some err =>
          ret (Some (Errorf "error in check if configured project exists: %w" [err]))
      | None =>
          err <~ statusExists config jiraClient ;;
          match err with
          | Some err =>
              ret (Some (Errorf "error in check if configured default status exists: %w"
                           [err]))
          | None => serveHTTP w config
          end
      end
  end.

End Run.

End startup.

(** The calls of [configSetup] when the configuration loads. *)
Definition setupCalls (w : startup.World) (config : Config) : list startup.Event :=
  match startup.dotenv w with
  | Some _ => [startup.Ev_Println "No .env file found."]
  | None => []
  end ++
  [startup.Ev_Printf ("Jira URL: %v" +:+ LF) [JiraUrl config];
   startup.Ev_NewClient (JiraUser config) (JiraToken config) (JiraUrl config)].

(** The variable that fills the field tagged [tag]: the one with the
    prefix first, the one named by the tag alone otherwise. *)
Definition lookupVar (env : gmap string string) (tag : string) : option string :=
  match env !! ("JELEASE_" +:+ tag) with
  | Some v => Some v
  | None => env !! tag
  end.

(** The tags of the fields of [Config] that are required. *)
Definition requiredTags : list string :=
  ["JIRA_URL"; "JIRA_USER"; "JIRA_TOKEN"; "PROJECT"; "DEFAULT_STATUS"].

Definition present (env : gmap string string) (tag : string) : bool :=
  match lookupVar env tag with
  | Some _ => true
  | None => false
  end.

(** ** Sample collaborators, for the examples *)

Module sample.

(** The double quote. *)
Definition DQ : string := String "034" EmptyString.

(** Quoting of a string of printable ASCII without quote or backslash. *)
Definition Quote (s : string) : string := DQ +:+ s +:+ DQ.

Definition config : Config :=
  {| Port := "8080";
     JiraUrl := "https://jira.example.org";
     JiraUser := "jelease";
     JiraToken := "secret";
     Project := "OPS";
     DefaultStatus := "To Do";
     AddLabels := ["jelease"] |}.

Definition release : Release.t := Release.mk "github" "widget" "2.0.0".

Definition body : json.Value :=
  json.Object
    [("provider", json.Str "github");
     ("project", json.Str "widget");
     ("version", json.Str "2.0.0")].

Definition post : http.Request := http.mkRequest "POST" (Some body).

Definition issue (id key summary : string) (created : Z) : jira.Issue :=
  jira.mkIssue id key
    (jira.mkIssueFields EmptyString "OPS" "Task" (Some "To Do") ["widget"] summary
       (time.mkTime created 0)).

Definition issue1 : jira.Issue := issue "10001" "OPS-1" "Update widget to version 1.9.0" 300.
Definition issue2 : jira.Issue := issue "10002" "OPS-2" "Update widget to version 1.9.1" 100.
Definition issue3 : jira.Issue := issue "10003" "OPS-3" "Update widget to version 1.9.2" 100.

Definition three : list jira.Issue := [issue1; issue2; issue3].

Definition ok : jira.Response := jira.mkResponse (io.mkReader "{}" None).
Definition failed : jira.Response :=
  jira.mkResponse (io.mkReader "{errorMessages:[]}" None).

(** A tracker that holds [issues] and accepts every call. *)
Definition tracker (issues : list jira.Issue) : jira.Client :=
  {| jira.Search := fun _ => (issues, Some ok, None);
     jira.Create := fun i => (Some (jira.mkIssue "10004" "OPS-4" (jira.Fields i)), Some ok, None);
     jira.UpdateIssue := fun _ _ => (Some ok, None) |}.

(** A tracker that cannot be reached: no response comes back, and the
    client answers a nil response with the error. *)
Definition unreachable : jira.Client :=
  {| jira.Search := fun _ => ([], None, Some "no response returned");
     jira.Create := fun _ => (None, None, Some "no response returned");
     jira.UpdateIssue := fun _ _ => (None, Some "no response returned") |}.

(** A tracker that answers every call with an error response. *)
Definition rejecting : jira.Client :=
  {| jira.Search := fun _ => ([], Some failed, Some "request failed");
     jira.Create := fun _ => (None, Some failed, Some "request failed");
     jira.UpdateIssue := fun _ _ => (Some failed, Some "request failed") |}.

(** A tracker that holds no issue and rejects the creation of one. *)
Definition readOnly : jira.Client :=
  {| jira.Search := fun _ => ([], Some ok, None);
     jira.Create := fun _ => (None, Some failed, Some "request failed");
     jira.UpdateIssue := fun _ _ => (Some failed, Some "request failed") |}.

(** An environment that sets the required variables and the labels, and
    the same environment asking for a dry run. *)
Definition baseEnv : gmap string string :=
  <["JELEASE_JIRA_URL" := "https://jira.example.org"]>
  (<["JELEASE_JIRA_USER" := "jelease"]>
  (<["JELEASE_JIRA_TOKEN" := "secret"]>
  (<["JELEASE_PROJECT" := "OPS"]>
  (<["JELEASE_DEFAULT_STATUS" := "To Do"]>
  (<["JELEASE_ADD_LABELS" := "jelease"]> ∅))))).

Definition env : gmap string string := <["JELEASE_DRY_RUN" := "true"]> baseEnv.



Definition splitList (s : string) : list string := [s].

(** A request with another method. *)
Definition get : http.Request := http.mkRequest "GET" (Some body).

(** A tracker that holds [issues] and rejects every change with an error
    response. *)
Definition frozen (issues : list jira.Issue) : jira.Client :=
  {| jira.Search := fun _ => (issues, Some ok, None);
     jira.Create := fun _ => (None, Some failed, Some "request failed");
     jira.UpdateIssue := fun _ _ => (Some failed, Some "request failed") |}.

(** The tracker at the start of the program: its projects and statuses. *)
Definition listing (projects statuses : list string) : startup.Client :=
  {| startup.GetList := (Some (startup.mkProject <$> projects), Some ok, None);
     startup.GetAllStatuses := (startup.mkStatus <$> statuses, Some ok, None) |}.

(** A start without a file of variables, in the environment [e], against
    a tracker with the given projects and statuses. *)
Definition world (e : gmap string string) (projects statuses : list string)
  : startup.World :=
  {| startup.dotenv := Some "open .env: no such file or directory";
     startup.environ := e;
     startup.NewClient := fun _ _ _ => inr (listing projects statuses);
     startup.ListenAndServe := fun _ => "http: Server closed" |}.

(** An environment that also gives a template for the description. *)
Definition descriptionText : string := "Release {{.Version}} of {{.Project}}".

Definition describedEnv : gmap string string :=
  <["JELEASE_ISSUE_DESCRIPTION" := descriptionText]> baseEnv.

(** An issue without fields, and a search that returns the given issues
    as go-jira types them. *)
Definition fieldless : raw.Issue := raw.mkIssue "10005" "OPS-5" None.

Definition searching (issues : list raw.Issue) (jql : string)
  : list raw.Issue * option jira.Response * option error :=
  (issues, Some ok, None).

End sample.

(** ** The earliest issue, first seen *)

(** [earliest issues j o]: [o] is the issue at position [j] of [issues],
    no issue of [issues] was created before it, and every issue at a
    position before [j] was created after it. *)
Definition earliest (issues : list jira.Issue) (j : nat) (o : jira.Issue) : Prop :=
  issues !! j = Some o /\
  (forall k x, issues !! k = Some x ->
     time.Before (jira.Created (jira.Fields x)) (jira.Created (jira.Fields o)) = false) /\
  (forall k x, (k < j)%nat -> issues !! k = Some x ->
     time.Before (jira.Created (jira.Fields o)) (jira.Created (jira.Fields x)) = true).

(** The names of the fields that an [updates] map touches: the members
    of its [update] and [fields] objects. *)
Definition touched (data : json.Value) : list string :=
  match data with
  | json.Object members =>
      '(section, v) ← members;
      if String.eqb section "update" || String.eqb section "fields" then
        match v with
        | json.Object fields => fields.*1
        | _ => []
        end
      else []
  | _ => []
  end.

(** * Properties *)

(** ** [time.Before] is a strict total order on instants *)

Ltac before :=
  unfold time.Before; intros;
  repeat match goal with
         | H : context [Z.ltb ?a ?b] |- _ => destruct (Z.ltb_spec a b); simpl in H
         | H : context [Z.eqb ?a ?b] |- _ => destruct (Z.eqb_spec a b); simpl in H
         | |- context [Z.ltb ?a ?b] => destruct (Z.ltb_spec a b); simpl
         | |- context [Z.eqb ?a ?b] => destruct (Z.eqb_spec a b); simpl
         end;
  try congruence; try lia.

Lemma Before_irrefl t : time.Before t t = false.
Proof. before. Qed.

Lemma Before_trans t u v :
  time.Before t u = true -> time.Before u v = true -> time.Before t v = true.
Proof. before. Qed.

Lemma Before_not_after t u v :
  time.Before t u = false -> time.Before v u = true -> time.Before t v = false.
Proof. before. Qed.

Lemma Before_below t u v :
  time.Before t u = false -> time.Before v u = true -> time.Before v t = true.
Proof. before. Qed.

(** ** The loop over the existing issues *)

Lemma earliest_singleton x : earliest [x] 0 x.
Proof.
  split; [done|]. split.
  - intros [|k] y Hy; simplify_eq/=. apply Before_irrefl.
  - intros k y Hk. lia.
Qed.

(** A later issue that was created before the oldest one so far takes
    its place. *)
Lemma earliest_snoc_before p j o cur :
  earliest p j o ->
  time.Before (jira.Created (jira.Fields cur)) (jira.Created (jira.Fields o)) = true ->
  earliest (p ++ [cur]) (length p) cur.
Proof.
  intros (Hj & Hmin & Hfirst) Hcur. split; [|split].
  - by rewrite lookup_app_r, Nat.sub_diag.
  - intros k x Hx. destruct (decide (k < length p)%nat) as [Hk|Hk].
    + rewrite lookup_app_l in Hx by done.
      eapply Before_not_after; eauto.
    + rewrite lookup_app_r in Hx by lia.
      destruct (k - length p)%nat as [|n]; simplify_eq/=. apply Before_irrefl.
  - intros k x Hk Hx. rewrite lookup_app_l in Hx by done.
    eapply Before_below; eauto.
Qed.

(** Another later issue leaves the oldest one so far in place. *)
Lemma earliest_snoc_keep p j o cur :
  earliest p j o ->
  time.Before (jira.Created (jira.Fields cur)) (jira.Created (jira.Fields o)) = false ->
  earliest (p ++ [cur]) j o.
Proof.
  intros (Hj & Hmin & Hfirst) Hcur.
  assert (j < length p)%nat as Hlt by (by eapply lookup_lt_Some).
  split; [|split].
  - by rewrite lookup_app_l.
  - intros k x Hx. destruct (decide (k < length p)%nat) as [Hk|Hk].
    + rewrite lookup_app_l in Hx by done. eauto.
    + rewrite lookup_app_r in Hx by lia.
      destruct (k - length p)%nat as [|n]; by simplify_eq/=.
  - intros k x Hk Hx. rewrite lookup_app_l in Hx by lia. eauto.
Qed.

Lemma delete_app_lt {A} (l1 l2 : list A) i :
  (i < length l1)%nat -> delete i (l1 ++ l2) = delete i l1 ++ l2.
Proof.
  revert i. induction l1 as [|x l1 IH]; intros [|i] Hi; simpl in *; try lia; [done|].
  f_equal. apply IH. lia.
Qed.

(** The invariant of the loop after its first turn: over the issues seen
    so far, [oldestExistingIssue] is the earliest, first seen, and
    [duplicateIssueKeys] holds the keys of all the others. *)
Lemma range_oldestStep_inv rest : forall i p j o d,
  (0 < i)%nat ->
  earliest p j o ->
  d ≡ₚ jira.Key <$> delete j p ->
  exists j',
    earliest (p ++ rest) j' (range oldestStep i rest (o, d)).1 /\
    (range oldestStep i rest (o, d)).2 ≡ₚ jira.Key <$> delete j' (p ++ rest).
Proof.
  induction rest as [|cur rest IH]; intros i p j o d Hi He Hd.
  - exists j. by rewrite app_nil_r.
  - simpl. destruct i as [|i]; [lia|]. simpl.
    assert (j < length p)%nat as Hlt by (destruct He; by eapply lookup_lt_Some).
    replace (p ++ cur :: rest)%list with ((p ++ [cur]) ++ rest)%list
      by (by rewrite <- app_assoc).
    destruct (time.Before _ _) eqn:Hb.
    + apply (IH _ _ (length p)); [lia|by eapply earliest_snoc_before|].
      rewrite delete_middle, app_nil_r.
      rewrite Hd. destruct He as [Hj _].
      rewrite (delete_Permutation p j o Hj) at 2. simpl.
      by rewrite Permutation_app_comm.
    + apply (IH _ _ j); [lia|by eapply earliest_snoc_keep|].
      rewrite delete_app_lt by done.
      rewrite fmap_app. simpl. by rewrite Hd.
Qed.

(** The loop finds the earliest issue, first seen, and collects the keys
    of all the other issues. *)
Lemma oldestOf_spec existingIssues :
  existingIssues <> [] ->
  exists j,
    earliest existingIssues j (oldestOf existingIssues).1 /\
    (oldestOf existingIssues).2 ≡ₚ jira.Key <$> delete j existingIssues.
Proof.
  destruct existingIssues as [|x rest]; [done|]. intros _.
  unfold oldestOf. simpl.
  apply (range_oldestStep_inv rest 1 [x] 0%nat x []); [lia|apply earliest_singleton|done].
Qed.

Lemma oldestOf_duplicates_length existingIssues :
  length (oldestOf existingIssues).2 = pred (length existingIssues).
Proof.
  destruct existingIssues as [|x rest]; [done|].
  destruct (oldestOf_spec (x :: rest)) as (j & (Hj & _) & Hd); [done|].
  rewrite Hd, length_fmap, length_delete by (by eexists). simpl. lia.
Qed.

(** ** The handler, branch by branch *)

Lemma append_empty_r (s : string) : s +:+ EmptyString = s.
Proof.
  induction s as [|c s IH]; [done|].
  change (String c (s +:+ EmptyString) = String c s). by f_equal.
Qed.

(** Unfolds the handler and splits on every answer it inspects. *)
Ltac handler_cases :=
  unfold handlePostWebhook, reconcile, createIssue, updateOldest, logErrorResponse,
    Issue_Search, Issue_Create, Issue_UpdateIssue, http_Error, logger_Printf,
    deref, emit, ret, bind, io.ReadAll, status, trace, outcome in *;
  repeat (case_match; simplify_eq/=).

(** The calls of one kind in a trace, event by event. *)
Lemma searches_cons e t :
  searches (e :: t) = match e with Ev_Search q => q :: searches t | _ => searches t end.
Proof. by destruct e. Qed.

Lemma creates_cons e t :
  creates (e :: t) = match e with Ev_Create i => i :: creates t | _ => creates t end.
Proof. by destruct e. Qed.

Lemma updates_cons e t :
  updates (e :: t) =
  match e with Ev_UpdateIssue k d => (k, d) :: updates t | _ => updates t end.
Proof. by destruct e. Qed.

Lemma errors_cons e t :
  errors (e :: t) = match e with Ev_http_Error _ c => c :: errors t | _ => errors t end.
Proof. by destruct e. Qed.

Ltac calls :=
  unfold trace, outcome, logged; simpl;
  repeat (rewrite ?searches_cons, ?creates_cons, ?updates_cons, ?errors_cons; simpl).

Section Properties.

Variable Quote : string -> string.
Variable config : Config.
Variable jiraClient : jira.Client.

Local Abbreviation handle := (handlePostWebhook Quote config jiraClient).
Local Abbreviation query := (existingIssuesQuery Quote config).
Local Abbreviation summary := (IssueSummary Quote).

Lemma IssueSummary_eq release :
  summary release =
  "Update " +:+ Release.Project release +:+ " to version " +:+ Release.Version release.
Proof.
  unfold IssueSummary. simpl. unfold fmt.operand. simpl.
  rewrite append_empty_r. reflexivity.
Qed.

Lemma handle_not_post r :
  http.Method r <> http.MethodPost ->
  exists line,
    handle r =
    ([Ev_http_Error "Method Not Allowed" http.StatusMethodNotAllowed; logged line],
     Done tt).
Proof.
  intros Hm. unfold handlePostWebhook.
  destruct (String.eqb_spec (http.Method r) http.MethodPost) as [|_]; [done|].
  simpl. by eexists (_, _).
Qed.

Lemma handle_undecodable r release e :
  http.Method r = http.MethodPost ->
  decoder.Decode (http.Body r) Release.zero = (release, Some e) ->
  exists line,
    handle r =
    ([Ev_http_Error "Bad Request" http.StatusBadRequest; logged line], Done tt).
Proof.
  intros Hm Hd. unfold handlePostWebhook. rewrite Hm, Hd. simpl. by eexists (_, _).
Qed.

Lemma handle_decoded r release :
  http.Method r = http.MethodPost ->
  decoder.Decode (http.Body r) Release.zero = (release, None) ->
  handle r = reconcile Quote config jiraClient release.
Proof. intros Hm Hd. unfold handlePostWebhook. by rewrite Hm, Hd. Qed.

(** Every request is of one of the three kinds above. *)
Lemma handle_cases r :
  (exists line,
     handle r =
     ([Ev_http_Error "Method Not Allowed" http.StatusMethodNotAllowed; logged line],
      Done tt)) \/
  (exists line,
     http.Method r = http.MethodPost /\
     (decoder.Decode (http.Body r) Release.zero).2 <> None /\
     handle r =
     ([Ev_http_Error "Bad Request" http.StatusBadRequest; logged line], Done tt)) \/
  (exists release,
     http.Method r = http.MethodPost /\
     decoder.Decode (http.Body r) Release.zero = (release, None) /\
     handle r = reconcile Quote config jiraClient release).
Proof.
  destruct (decide (http.Method r = http.MethodPost)) as [Hm|Hm].
  - destruct (decoder.Decode (http.Body r) Release.zero) as [release [e|]] eqn:Hd.
    + right; left. destruct (handle_undecodable r release e Hm Hd) as [line Hl].
      by exists line.
    + right; right. exists release. eauto using handle_decoded.
  - left. by apply handle_not_post.
Qed.

(** The branch that creates: the call to [Create] comes first, and no
    call to the tracker follows it. *)
Lemma createIssue_trace release :
  exists rest,
    trace (createIssue Quote config jiraClient release) =
      Ev_Create (JiraIssue Quote config release) :: rest /\
    searches rest = [] /\ creates rest = [] /\ updates rest = [].
Proof. handler_cases; by eexists. Qed.

(** The branch that updates: the report of the duplicates when there are
    any, then the call to [UpdateIssue] on the oldest issue, and no call
    to the tracker after it. *)
Lemma updateOldest_trace release existingIssues :
  exists rest,
    trace (updateOldest Quote jiraClient release existingIssues) =
      (if (0 <? length (oldestOf existingIssues).2)%nat then
         [Ev_Printf
            "Ignoring the following possible duplicate issues in favor of older issue %v: %v"
            [AStr (jira.Key (oldestOf existingIssues).1);
             AStr (strings.Join (oldestOf existingIssues).2 ", ")]]
       else []) ++
      Ev_UpdateIssue (jira.ID (oldestOf existingIssues).1) (summaryUpdate (summary release))
      :: rest /\
    searches rest = [] /\ creates rest = [] /\ updates rest = [].
Proof. handler_cases; by eexists. Qed.

Lemma reconcile_search_failed release existingIssues resp e :
  jira.Search jiraClient (query release) = (existingIssues, resp, Some e) ->
  exists rest,
    trace (reconcile Quote config jiraClient release) = Ev_Search (query release) :: rest /\
    searches rest = [] /\ creates rest = [] /\ updates rest = [].
Proof. intros Hs. handler_cases; by eexists. Qed.

Lemma reconcile_empty release resp :
  jira.Search jiraClient (query release) = ([], resp, None) ->
  reconcile Quote config jiraClient release =
  (Ev_Search (query release) :: trace (createIssue Quote config jiraClient release),
   outcome (createIssue Quote config jiraClient release)).
Proof.
  intros Hs. unfold reconcile, Issue_Search, emit, ret, bind, trace, outcome.
  rewrite Hs. simpl. by destruct (createIssue _ _ _ _) as [? []].
Qed.

Lemma reconcile_found release existingIssues resp :
  jira.Search jiraClient (query release) = (existingIssues, resp, None) ->
  existingIssues <> [] ->
  reconcile Quote config jiraClient release =
  (Ev_Search (query release)
     :: trace (updateOldest Quote jiraClient release existingIssues),
   outcome (updateOldest Quote jiraClient release existingIssues)).
Proof.
  intros Hs Hne. unfold reconcile, Issue_Search, emit, ret, bind, trace, outcome.
  rewrite Hs. simpl. destruct existingIssues as [|x l]; [done|]. simpl.
  by destruct (updateOldest _ _ _ _) as [? []].
Qed.

(** Which calls change the tracker, over all requests: none, or the one
    creation after a search that found nothing, or the one update of the
    oldest issue after a search that found some. *)
Lemma handle_mutations r :
  (creates (trace (handle r)) = [] /\ updates (trace (handle r)) = []) \/
  (exists release resp,
     http.Method r = http.MethodPost /\
     decoder.Decode (http.Body r) Release.zero = (release, None) /\
     jira.Search jiraClient (query release) = ([], resp, None) /\
     creates (trace (handle r)) = [JiraIssue Quote config release] /\
     updates (trace (handle r)) = []) \/
  (exists release existingIssues resp,
     http.Method r = http.MethodPost /\
     decoder.Decode (http.Body r) Release.zero = (release, None) /\
     jira.Search jiraClient (query release) = (existingIssues, resp, None) /\
     existingIssues <> [] /\
     creates (trace (handle r)) = [] /\
     updates (trace (handle r)) =
       [(jira.ID (oldestOf existingIssues).1, summaryUpdate (summary release))]).
Proof.
  destruct (handle_cases r) as [[line ->]|[(line & _ & _ & ->)|(release & Hm & Hd & ->)]];
    [by left..|].
  destruct (jira.Search jiraClient (query release)) as [[existingIssues resp] [e|]] eqn:Hs.
  - left. destruct (reconcile_search_failed _ _ _ _ Hs) as (rest & -> & _ & Hc & Hu).
    by calls.
  - destruct existingIssues as [|x l].
    + right; left. exists release, resp. rewrite (reconcile_empty _ _ Hs).
      destruct (createIssue_trace release) as (rest & -> & _ & Hc & Hu).
      calls. by rewrite Hc, Hu.
    + right; right. exists release, (x :: l), resp.
      rewrite (reconcile_found _ _ _ Hs) by done.
      destruct (updateOldest_trace release (x :: l)) as (rest & -> & _ & Hc & Hu).
      destruct (0 <? _)%nat; calls; by rewrite Hu.
Qed.


Lemma reconcile_searches release :
  searches (trace (reconcile Quote config jiraClient release)) = [query release].
Proof. handler_cases; by calls. Qed.

(** An issue at another position than [j] has its key among the keys of
    the list without position [j]. *)
Lemma key_of_other (issues : list jira.Issue) j k x :
  k <> j -> issues !! k = Some x -> jira.Key x ∈ jira.Key <$> delete j issues.
Proof.
  intros Hk Hx. apply list_elem_of_fmap_2.
  destruct (decide (k < j)%nat) as [Hlt|Hge].
  - apply (list_elem_of_lookup_2 _ k). by rewrite list_lookup_delete_lt.
  - destruct k as [|k]; [lia|].
    apply (list_elem_of_lookup_2 _ k). rewrite list_lookup_delete_ge by lia. done.
Qed.

(** The calls that change the tracker after a search that found
    nothing, and after a search that found some issues. *)
Lemma found_nothing_mutations r release resp :
  http.Method r = http.MethodPost ->
  decoder.Decode (http.Body r) Release.zero = (release, None) ->
  jira.Search jiraClient (query release) = ([], resp, None) ->
  creates (trace (handle r)) = [JiraIssue Quote config release] /\
  updates (trace (handle r)) = [].
Proof.
  intros Hm Hd Hs.
  rewrite (handle_decoded r release Hm Hd), (reconcile_empty _ _ Hs).
  destruct (createIssue_trace release) as (rest & -> & _ & Hc & Hu).
  calls. by rewrite Hc, Hu.
Qed.

Lemma found_some_mutations r release existingIssues resp :
  http.Method r = http.MethodPost ->
  decoder.Decode (http.Body r) Release.zero = (release, None) ->
  jira.Search jiraClient (query release) = (existingIssues, resp, None) ->
  existingIssues <> [] ->
  creates (trace (handle r)) = [] /\
  updates (trace (handle r)) =
    [(jira.ID (oldestOf existingIssues).1, summaryUpdate (summary release))].
Proof.
  intros Hm Hd Hs Hne.
  rewrite (handle_decoded r release Hm Hd), (reconcile_found _ _ _ Hs Hne).
  destruct (updateOldest_trace release existingIssues) as (rest & -> & _ & Hc & Hu).
  destruct (0 <? _)%nat; calls; by rewrite Hc, Hu.
Qed.

(** ** The claims on the reconciliation *)

(** C1. For every webhook request whose tracker query returns N >= 1
    issues, the handler calls [UpdateIssue] exactly once, on the issue
    with the earliest creation time among the returned ones (the first
    seen of them when several share it), and never calls [Create]. *)
Theorem update_targets_earliest r release existingIssues resp :
  http.Method r = http.MethodPost ->
  decoder.Decode (http.Body r) Release.zero = (release, None) ->
  jira.Search jiraClient (query release) = (existingIssues, resp, None) ->
  (1 <= length existingIssues)%nat ->
  exists j oldest,
    earliest existingIssues j oldest /\
    updates (trace (handle r)) = [(jira.ID oldest, summaryUpdate (summary release))] /\
    creates (trace (handle r)) = [].
Proof.
  intros Hm Hd Hs Hn.
  assert (existingIssues <> []) as Hne by (destruct existingIssues; simpl in Hn; [lia|done]).
  destruct (oldestOf_spec existingIssues Hne) as (j & He & _).
  exists j, (oldestOf existingIssues).1. split; [done|].
  destruct (found_some_mutations r release existingIssues resp Hm Hd Hs Hne) as [Hc Hu].
  by rewrite Hc, Hu.
Qed.

(** C2. For every webhook request whose tracker query succeeds with an
    empty result, the handler calls [Create] exactly once, right after
    the search, and never calls [UpdateIssue]; the empty result is no
    error: when the creation succeeds no error status is written and the
    request ends with 200. *)
Theorem empty_result_creates_once r release resp :
  http.Method r = http.MethodPost ->
  decoder.Decode (http.Body r) Release.zero = (release, None) ->
  jira.Search jiraClient (query release) = ([], resp, None) ->
  creates (trace (handle r)) = [JiraIssue Quote config release] /\
  updates (trace (handle r)) = [] /\
  (exists rest,
     trace (handle r) =
     Ev_Search (query release) :: Ev_Create (JiraIssue Quote config release) :: rest) /\
  (forall newIssue response,
     jira.Create jiraClient (JiraIssue Quote config release) = (Some newIssue, response, None) ->
     errors (trace (handle r)) = [] /\ status (handle r) = Some http.StatusOK).
Proof.
  intros Hm Hd Hs.
  rewrite (handle_decoded r release Hm Hd), (reconcile_empty _ _ Hs).
  destruct (createIssue_trace release) as (rest & Ht & _ & Hc & Hu).
  repeat split.
  - rewrite Ht. calls. by rewrite Hc.
  - rewrite Ht. calls. by rewrite Hu.
  - rewrite Ht. by exists rest.
  - clear Ht. handler_cases. by calls.
  - clear Ht. handler_cases. by calls.
Qed.

(** C3. For every webhook request whose tracker query returns two or
    more issues, one issue, the earliest, is the target of the only call
    that changes the tracker; the handler reports the duplicates, the
    reported keys are the keys of all the other issues, and no call
    creates an issue or updates another one. *)
Theorem duplicates_reported_and_untouched r release existingIssues resp :
  http.Method r = http.MethodPost ->
  decoder.Decode (http.Body r) Release.zero = (release, None) ->
  jira.Search jiraClient (query release) = (existingIssues, resp, None) ->
  (2 <= length existingIssues)%nat ->
  exists j oldest duplicateIssueKeys,
    earliest existingIssues j oldest /\
    Ev_Printf
      "Ignoring the following possible duplicate issues in favor of older issue %v: %v"
      [AStr (jira.Key oldest); AStr (strings.Join duplicateIssueKeys ", ")]
      ∈ trace (handle r) /\
    duplicateIssueKeys ≡ₚ jira.Key <$> delete j existingIssues /\
    (forall k x, k <> j -> existingIssues !! k = Some x -> jira.Key x ∈ duplicateIssueKeys) /\
    creates (trace (handle r)) = [] /\
    updates (trace (handle r)) = [(jira.ID oldest, summaryUpdate (summary release))] /\
    (forall issueID data, (issueID, data) ∈ updates (trace (handle r)) ->
       issueID = jira.ID oldest).
Proof.
  intros Hm Hd Hs Hn.
  assert (existingIssues <> []) as Hne by (destruct existingIssues; simpl in Hn; [lia|done]).
  destruct (oldestOf_spec existingIssues Hne) as (j & He & Hp).
  exists j, (oldestOf existingIssues).1, (oldestOf existingIssues).2.
  rewrite (handle_decoded r release Hm Hd), (reconcile_found _ _ _ Hs Hne).
  destruct (updateOldest_trace release existingIssues) as (rest & -> & _ & Hc & Hu).
  assert ((0 <? length (oldestOf existingIssues).2)%nat = true) as ->.
  { rewrite oldestOf_duplicates_length. apply Nat.ltb_lt. lia. }
  split; [done|]. split; [calls; set_solver|]. split; [done|].
  split; [intros k x Hk Hx; rewrite Hp; by eapply key_of_other|].
  calls. rewrite Hc, Hu. repeat split.
  intros issueID data Hin. apply list_elem_of_singleton in Hin. by simplify_eq.
Qed.

(** C4. For every release, and so for every release with a project and
    a version that are not empty, the summary is the word Update, the
    project, the words to version and the version; it is the summary of
    the issue that [JiraIssue] renders. *)
Theorem summary_format release :
  summary release =
    "Update " +:+ Release.Project release +:+ " to version " +:+ Release.Version release /\
  jira.Summary (jira.Fields (JiraIssue Quote config release)) =
    "Update " +:+ Release.Project release +:+ " to version " +:+ Release.Version release.
Proof. split; apply IssueSummary_eq. Qed.

(** C5. Every update the handler issues carries the map that sets the
    summary to the summary of the decoded release and nothing else: the
    one field it touches is the summary; description and labels are not
    among the fields of the request. *)
Theorem update_sets_summary_only r issueID data :
  (issueID, data) ∈ updates (trace (handle r)) ->
  (exists release,
     decoder.Decode (http.Body r) Release.zero = (release, None) /\
     data = summaryUpdate (summary release)) /\
  touched data = ["summary"].
Proof.
  intros Hin.
  destruct (handle_mutations r)
    as [[_ Hu]|[(release & resp & _ & _ & _ & _ & Hu)
               |(release & existingIssues & resp & _ & Hd & _ & _ & _ & Hu)]];
    rewrite Hu in Hin; try by apply elem_of_nil in Hin.
  apply list_elem_of_singleton in Hin. simplify_eq. split; [by exists release|done].
Qed.

(** C8, as the code has it. Every issue the handler creates carries the
    one fixed description, whatever the configuration and the release:
    no template is evaluated. *)
Theorem created_description_is_fixed r i :
  i ∈ creates (trace (handle r)) ->
  jira.Description (jira.Fields i) = generatedDescription.
Proof.
  intros Hin.
  destruct (handle_mutations r)
    as [[Hc _]|[(release & resp & _ & _ & _ & Hc & _)
               |(release & existingIssues & resp & _ & _ & _ & _ & Hc & _)]];
    rewrite Hc in Hin; try by apply elem_of_nil in Hin.
  apply list_elem_of_singleton in Hin. by subst.
Qed.

(** ** Decoding the body *)










(** ** Errors of the tracker *)

(** After a failed search the handler calls the tracker no more. *)
Lemma search_error_no_mutation r release existingIssues resp e :
  http.Method r = http.MethodPost ->
  decoder.Decode (http.Body r) Release.zero = (release, None) ->
  jira.Search jiraClient (query release) = (existingIssues, resp, Some e) ->
  creates (trace (handle r)) = [] /\ updates (trace (handle r)) = [].
Proof.
  intros Hm Hd Hs. rewrite (handle_decoded r release Hm Hd).
  destruct (reconcile_search_failed _ _ _ _ Hs) as (rest & -> & _ & Hc & Hu).
  by calls.
Qed.

(** A failed search that comes with a response is answered with 500. *)
Lemma search_error_with_response r release existingIssues response e :
  http.Method r = http.MethodPost ->
  decoder.Decode (http.Body r) Release.zero = (release, None) ->
  jira.Search jiraClient (query release) = (existingIssues, Some response, Some e) ->
  status (handle r) = Some http.StatusInternalServerError.
Proof.
  intros Hm Hd Hs. rewrite (handle_decoded r release Hm Hd).
  handler_cases; by calls.
Qed.

(** A failed search that comes without a response makes the handler
    panic where it reads the body of the response, before it writes any
    status. *)
Lemma search_error_without_response r release existingIssues e :
  http.Method r = http.MethodPost ->
  decoder.Decode (http.Body r) Release.zero = (release, None) ->
  jira.Search jiraClient (query release) = (existingIssues, None, Some e) ->
  handle r =
  ([Ev_Search (query release)], Panic "invalid memory address or nil pointer dereference").
Proof.
  intros Hm Hd Hs. rewrite (handle_decoded r release Hm Hd).
  unfold reconcile, Issue_Search, emit, ret, bind. by rewrite Hs.
Qed.

(** A failed creation that comes with a response: after the status 500
    the handler goes on to the line that reports the created issue, and
    panics there when the tracker handed no issue back. *)
Lemma create_error_falls_through r release resp newIssue response e :
  http.Method r = http.MethodPost ->
  decoder.Decode (http.Body r) Release.zero = (release, None) ->
  jira.Search jiraClient (query release) = ([], resp, None) ->
  jira.Create jiraClient (JiraIssue Quote config release) = (newIssue, Some response, Some e) ->
  exists line,
    handle r =
    ([Ev_Search (query release); Ev_Create (JiraIssue Quote config release); logged line;
      Ev_http_Error "Internal Server Error" http.StatusInternalServerError]
       ++ match newIssue with
          | Some i => [Ev_Printf ("Created issue %v" +:+ LF) [AStr (jira.ID i)]]
          | None => []
          end,
     match newIssue with
     | Some _ => Done tt
     | None => Panic "invalid memory address or nil pointer dereference"
     end).
Proof.
  intros Hm Hd Hs Hc. rewrite (handle_decoded r release Hm Hd).
  unfold reconcile, Issue_Search, emit, ret, bind. rewrite Hs. simpl.
  unfold createIssue, Issue_Create, logErrorResponse, emit, ret, bind. rewrite Hc. simpl.
  destruct response as [[body [readErr|]]], newIssue; simpl; by eexists (_, _).
Qed.

End Properties.

(** ** The configuration *)

Lemma gather_ext (env env' : gmap string string) tag def required :
  env' !! ("JELEASE_" +:+ tag) = env !! ("JELEASE_" +:+ tag) ->
  env' !! tag = env !! tag ->
  envconfig.gather env' tag def required = envconfig.gather env tag def required.
Proof. unfold envconfig.gather. by intros -> ->. Qed.

(** No field of [Config] is filled from the variable JELEASE_DRY_RUN. *)
Lemma Process_ignores_dry_run splitList (env : gmap string string) v :
  envconfig.Process splitList (<["JELEASE_DRY_RUN" := v]> env) =
  envconfig.Process splitList env.
Proof.
  unfold envconfig.Process.
  rewrite !(gather_ext env (<["JELEASE_DRY_RUN" := v]> env));
    try (apply lookup_insert_ne; intros Heq; vm_compute in Heq; discriminate Heq).
  done.
Qed.

(** C9, as the code has it. The configuration has no dry-run option: a
    variable JELEASE_DRY_RUN leaves the loaded configuration as it is,
    and under the configuration loaded with it every request whose query
    succeeds still issues its one call that changes the tracker, the
    creation when nothing was found and the update of the oldest issue
    otherwise. *)
Theorem dry_run_is_no_option splitList Quote jiraClient
    (env : gmap string string) v cfg r release existingIssues resp :
  envconfig.Process splitList (<["JELEASE_DRY_RUN" := v]> env) = inr cfg ->
  http.Method r = http.MethodPost ->
  decoder.Decode (http.Body r) Release.zero = (release, None) ->
  jira.Search jiraClient (existingIssuesQuery Quote cfg release) = (existingIssues, resp, None) ->
  envconfig.Process splitList env = inr cfg /\
  creates (trace (handlePostWebhook Quote cfg jiraClient r)) =
    match existingIssues with
    | [] => [JiraIssue Quote cfg release]
    | _ :: _ => []
    end /\
  updates (trace (handlePostWebhook Quote cfg jiraClient r)) =
    match existingIssues with
    | [] => []
    | _ :: _ =>
        [(jira.ID (oldestOf existingIssues).1, summaryUpdate (IssueSummary Quote release))]
    end.
Proof.
  intros Hp Hm Hd Hs. rewrite Process_ignores_dry_run in Hp. split; [done|].
  destruct existingIssues as [|x l].
  - by eapply found_nothing_mutations.
  - by eapply found_some_mutations.
Qed.

(** ** The handler on the sample collaborators *)

(** Of three issues, the second and the third created at the same time
    before the first, the loop keeps the second and reports the two
    others. *)
Example oldestOf_three :
  oldestOf sample.three = (sample.issue2, ["OPS-1"; "OPS-3"]).
Proof. reflexivity. Qed.

Example Decode_body :
  decoder.Decode (Some sample.body) Release.zero = (sample.release, None).
Proof. reflexivity. Qed.

(** A member name that differs in case, or by the long s, selects the
    field all the same. *)
Example Decode_folded :
  decoder.Decode
    (Some (json.Object
             [("Project", json.Str "widget");
              (String "v" (String "e" (String "r" (String "197" (String "191" "ion")))),
               json.Str "2.0.0")]))
    Release.zero
  = (Release.mk "" "widget" "2.0.0", None).
Proof. reflexivity. Qed.

Example Process_env : envconfig.Process sample.splitList sample.env = inr sample.config.
Proof. vm_compute. reflexivity. Qed.

(** C6, at a tracker that cannot be reached. The search returns an
    error and no response; the handler panics where it reads the body of
    the response, before it writes the status 500, and the request gets
    no answer. *)
Theorem unreachable_tracker_panics :
  jira.Search sample.unreachable
    (existingIssuesQuery sample.Quote sample.config sample.release)
    = ([], None, Some "no response returned") /\
  handlePostWebhook sample.Quote sample.config sample.unreachable sample.post
    = ([Ev_Search (existingIssuesQuery sample.Quote sample.config sample.release)],
       Panic "invalid memory address or nil pointer dereference") /\
  errors (trace (handlePostWebhook sample.Quote sample.config sample.unreachable sample.post))
    = [] /\
  status (handlePostWebhook sample.Quote sample.config sample.unreachable sample.post)
    = None.
Proof. repeat split. Qed.

(** C7, at a tracker that holds no issue and rejects the creation. The
    handler writes the status 500 and does not return: it goes on to
    the line that reports the created issue and panics there on the nil
    issue, so the request gets no answer. *)
Theorem failed_creation_is_not_terminal :
  jira.Create sample.readOnly (JiraIssue sample.Quote sample.config sample.release)
    = (None, Some sample.failed, Some "request failed") /\
  handlePostWebhook sample.Quote sample.config sample.readOnly sample.post
    = ([Ev_Search (existingIssuesQuery sample.Quote sample.config sample.release);
        Ev_Create (JiraIssue sample.Quote sample.config sample.release);
        Ev_Printf "%v: %v. Response body: %v"
          [AErr "error response from Jira when creating issue";
           AErr "request failed"; AStr "{errorMessages:[]}"];
        Ev_http_Error "Internal Server Error" http.StatusInternalServerError],
       Panic "invalid memory address or nil pointer dereference") /\
  status (handlePostWebhook sample.Quote sample.config sample.readOnly sample.post)
    = None.
Proof. repeat split. Qed.

Example Parse_descriptionText :
  texttemplate.Parse sample.descriptionText =
  inr [template.TextNode "Release "; template.FieldNode "Version";
       template.TextNode " of "; template.FieldNode "Project"].
Proof. reflexivity. Qed.

(** No field of [Config] is filled from the variable
    JELEASE_ISSUE_DESCRIPTION. *)
Lemma Process_ignores_issue_description splitList (env : gmap string string) v :
  envconfig.Process splitList (<["JELEASE_ISSUE_DESCRIPTION" := v]> env) =
  envconfig.Process splitList env.
Proof.
  unfold envconfig.Process.
  rewrite !(gather_ext env (<["JELEASE_ISSUE_DESCRIPTION" := v]> env));
    try (apply lookup_insert_ne; intros Heq; vm_compute in Heq; discriminate Heq).
  done.
Qed.

(** C8, as stated, fails: with a description template configured in
    JELEASE_ISSUE_DESCRIPTION, the configuration loads and a request for
    a project without issue creates an issue whose description is not
    what that template evaluates to on the release. *)
Lemma configured_description_not_rendered :
  ~ (sample.describedEnv !! "JELEASE_ISSUE_DESCRIPTION" = Some sample.descriptionText ->
     envconfig.Process sample.splitList sample.describedEnv = inr sample.config ->
     forall t i,
       texttemplate.Parse sample.descriptionText = inr t ->
       i ∈ creates (trace (handlePostWebhook sample.Quote sample.config (sample.tracker [])
                             sample.post)) ->
       jira.Description (jira.Fields i) =
       (template.Render (list template.Node) Release.t template.Execute t sample.release).1).
Proof.
  intros H.
  specialize (H ltac:(vm_compute; reflexivity) ltac:(vm_compute; reflexivity)
                [template.TextNode "Release "; template.FieldNode "Version";
                 template.TextNode " of "; template.FieldNode "Project"]
                (JiraIssue sample.Quote sample.config sample.release)
                ltac:(reflexivity) ltac:(vm_compute; constructor)).
  vm_compute in H. discriminate H.
Qed.

(** C9, as stated, fails: with JELEASE_DRY_RUN set, the configuration
    loads and a request for a project without issue still creates one on
    the tracker. *)
Lemma dry_run_still_creates :
  ~ (sample.env !! "JELEASE_DRY_RUN" = Some "true" ->
     envconfig.Process sample.splitList sample.env = inr sample.config ->
     creates (trace (handlePostWebhook sample.Quote sample.config (sample.tracker [])
                       sample.post)) = [] /\
     updates (trace (handlePostWebhook sample.Quote sample.config (sample.tracker [])
                       sample.post)) = []).
Proof.
  intros H. destruct H as [Hc _]; [vm_compute; reflexivity..|].
  vm_compute in Hc. discriminate Hc.
Qed.


(** ** The claims at the sample collaborators *)

Lemma update_targets_earliest_witness :
  exists j oldest,
    earliest sample.three j oldest /\
    updates (trace (handlePostWebhook sample.Quote sample.config
                      (sample.tracker sample.three) sample.post))
      = [(jira.ID oldest, summaryUpdate (IssueSummary sample.Quote sample.release))] /\
    creates (trace (handlePostWebhook sample.Quote sample.config
                      (sample.tracker sample.three) sample.post)) = [].
Proof.
  apply (update_targets_earliest sample.Quote sample.config (sample.tracker sample.three)
           sample.post sample.release sample.three (Some sample.ok));
    [reflexivity | reflexivity | reflexivity | simpl; lia].
Defined.

Lemma empty_result_creates_once_witness :
  creates (trace (handlePostWebhook sample.Quote sample.config (sample.tracker [])
                    sample.post))
    = [JiraIssue sample.Quote sample.config sample.release] /\
  updates (trace (handlePostWebhook sample.Quote sample.config (sample.tracker [])
                    sample.post)) = [] /\
  (exists rest,
     trace (handlePostWebhook sample.Quote sample.config (sample.tracker []) sample.post) =
     Ev_Search (existingIssuesQuery sample.Quote sample.config sample.release)
       :: Ev_Create (JiraIssue sample.Quote sample.config sample.release) :: rest) /\
  (forall newIssue response,
     jira.Create (sample.tracker []) (JiraIssue sample.Quote sample.config sample.release)
       = (Some newIssue, response, None) ->
     errors (trace (handlePostWebhook sample.Quote sample.config (sample.tracker [])
                      sample.post)) = [] /\
     status (handlePostWebhook sample.Quote sample.config (sample.tracker []) sample.post)
       = Some http.StatusOK).
Proof.
  apply (empty_result_creates_once sample.Quote sample.config (sample.tracker [])
           sample.post sample.release (Some sample.ok));
    reflexivity.
Defined.

Lemma duplicates_reported_and_untouched_witness :
  exists j oldest duplicateIssueKeys,
    earliest sample.three j oldest /\
    Ev_Printf
      "Ignoring the following possible duplicate issues in favor of older issue %v: %v"
      [AStr (jira.Key oldest); AStr (strings.Join duplicateIssueKeys ", ")]
      ∈ trace (handlePostWebhook sample.Quote sample.config
                 (sample.tracker sample.three) sample.post) /\
    duplicateIssueKeys ≡ₚ jira.Key <$> delete j sample.three /\
    (forall k x, k <> j -> sample.three !! k = Some x -> jira.Key x ∈ duplicateIssueKeys) /\
    creates (trace (handlePostWebhook sample.Quote sample.config
                      (sample.tracker sample.three) sample.post)) = [] /\
    updates (trace (handlePostWebhook sample.Quote sample.config
                      (sample.tracker sample.three) sample.post))
      = [(jira.ID oldest, summaryUpdate (IssueSummary sample.Quote sample.release))] /\
    (forall issueID data,
       (issueID, data) ∈ updates (trace (handlePostWebhook sample.Quote sample.config
                                           (sample.tracker sample.three) sample.post)) ->
       issueID = jira.ID oldest).
Proof.
  apply (duplicates_reported_and_untouched sample.Quote sample.config
           (sample.tracker sample.three) sample.post sample.release sample.three
           (Some sample.ok));
    [reflexivity | reflexivity | reflexivity | simpl; lia].
Defined.

Lemma update_sets_summary_only_witness :
  (exists release,
     decoder.Decode (http.Body sample.post) Release.zero = (release, None) /\
     summaryUpdate (IssueSummary sample.Quote sample.release)
       = summaryUpdate (IssueSummary sample.Quote release)) /\
  touched (summaryUpdate (IssueSummary sample.Quote sample.release)) = ["summary"].
Proof.
  apply (update_sets_summary_only sample.Quote sample.config (sample.tracker sample.three)
           sample.post "10002").
  vm_compute. constructor.
Defined.

Lemma created_description_is_fixed_witness :
  jira.Description (jira.Fields (JiraIssue sample.Quote sample.config sample.release))
    = generatedDescription.
Proof.
  apply (created_description_is_fixed sample.Quote sample.config (sample.tracker [])
           sample.post).
  vm_compute. constructor.
Defined.

Lemma dry_run_is_no_option_witness :
  envconfig.Process sample.splitList sample.baseEnv = inr sample.config /\
  creates (trace (handlePostWebhook sample.Quote sample.config (sample.tracker [])
                    sample.post))
    = [JiraIssue sample.Quote sample.config sample.release] /\
  updates (trace (handlePostWebhook sample.Quote sample.config (sample.tracker [])
                    sample.post)) = [].
Proof.
  apply (dry_run_is_no_option sample.splitList sample.Quote (sample.tracker [])
           sample.baseEnv "true" sample.config sample.post sample.release []
           (Some sample.ok));
    [vm_compute; reflexivity | reflexivity | reflexivity | reflexivity].
Defined.


(** * Further properties of the handler *)

Section Handler.

Variable Quote : string -> string.
Variable config : Config.
Variable jiraClient : jira.Client.

Local Abbreviation handle := (handlePostWebhook Quote config jiraClient).
Local Abbreviation query := (existingIssuesQuery Quote config).
Local Abbreviation summary := (IssueSummary Quote).

(** X1. A request with another method than POST is answered with 405:
    its body is not decoded and the tracker is not called. *)
Theorem other_method_not_allowed r :
  http.Method r <> http.MethodPost ->
  status (handle r) = Some http.StatusMethodNotAllowed /\
  errors (trace (handle r)) = [http.StatusMethodNotAllowed] /\
  searches (trace (handle r)) = [] /\
  creates (trace (handle r)) = [] /\
  updates (trace (handle r)) = [].
Proof.
  intros Hm. destruct (handle_not_post Quote config jiraClient r Hm) as [line ->].
  by calls.
Qed.

(** X2. Every request searches the tracker at most once and changes it
    at most once; a trace with a change starts with the search. *)
Theorem at_most_one_change r :
  (length (searches (trace (handle r))) <= 1)%nat /\
  (length (creates (trace (handle r))) + length (updates (trace (handle r))) <= 1)%nat /\
  (creates (trace (handle r)) = [] /\ updates (trace (handle r)) = [] \/
   exists q rest, trace (handle r) = Ev_Search q :: rest /\ searches rest = []).
Proof.
  destruct (handle_cases Quote config jiraClient r)
    as [[line ->]|[(line & _ & _ & ->)|(release & Hm & Hd & ->)]].
  - calls. repeat split; [lia..|by left].
  - calls. repeat split; [lia..|by left].
  - rewrite reconcile_searches.
    destruct (jira.Search jiraClient (query release)) as [[existingIssues resp] [e|]] eqn:Hs.
    + destruct (reconcile_search_failed _ _ _ _ _ _ _ Hs) as (rest & -> & Hq & Hc & Hu).
      calls. rewrite Hc, Hu. simpl. repeat split; [lia..|by left].
    + destruct existingIssues as [|x l].
      * rewrite (reconcile_empty _ _ _ _ _ Hs).
        destruct (createIssue_trace Quote config jiraClient release)
          as (rest & -> & Hq & Hc & Hu).
        calls. rewrite Hc, Hu. simpl. repeat split; [lia..|].
        right. eexists _, _. split; [done|]. calls. by rewrite Hq.
      * rewrite (reconcile_found _ _ _ _ _ _ Hs) by done.
        destruct (updateOldest_trace Quote jiraClient release (x :: l))
          as (rest & -> & Hq & Hc & Hu).
        destruct (0 <? _)%nat; calls; rewrite Hc, Hu; simpl;
          (repeat split; [lia..|]); right; eexists _, _; (split; [done|]);
          calls; by rewrite Hq.
Qed.


(** X3. An answer of 200 means that the tracker was changed once and
    accepted the change: the handler called [Create] or [UpdateIssue]
    once, and that call returned no error. *)
Theorem ok_means_change_accepted r :
  status (handle r) = Some http.StatusOK ->
  (exists release newIssue response,
     decoder.Decode (http.Body r) Release.zero = (release, None) /\
     creates (trace (handle r)) = [JiraIssue Quote config release] /\
     updates (trace (handle r)) = [] /\
     jira.Create jiraClient (JiraIssue Quote config release)
       = (Some newIssue, response, None)) \/
  (exists issueID data response,
     creates (trace (handle r)) = [] /\
     updates (trace (handle r)) = [(issueID, data)] /\
     jira.UpdateIssue jiraClient issueID data = (response, None)).
Proof.
  destruct (handle_cases Quote config jiraClient r)
    as [[line ->]|[(line & _ & _ & ->)|(release & Hm & Hd & ->)]]; [done..|].
  intros Hs. handler_cases; calls; first [by left; eauto 10 | by right; eauto 10].
Qed.

(** X4. An answer of 500 is written only after a call to the tracker
    returned an error: the search, the creation or the update. *)
Theorem server_error_means_tracker_error r :
  http.StatusInternalServerError ∈ errors (trace (handle r)) ->
  exists release e,
    decoder.Decode (http.Body r) Release.zero = (release, None) /\
    ((exists existingIssues resp,
        jira.Search jiraClient (query release) = (existingIssues, resp, Some e)) \/
     (exists newIssue response,
        jira.Create jiraClient (JiraIssue Quote config release)
          = (newIssue, response, Some e)) \/
     (exists issueID data response,
        updates (trace (handle r)) = [(issueID, data)] /\
        jira.UpdateIssue jiraClient issueID data = (response, Some e))).
Proof.
  destruct (handle_cases Quote config jiraClient r)
    as [[line ->]|[(line & _ & _ & ->)|(release & Hm & Hd & ->)]].
  - calls. intros Hin. apply list_elem_of_singleton in Hin. discriminate Hin.
  - calls. intros Hin. apply list_elem_of_singleton in Hin. discriminate Hin.
  - intros Hin. exists release. handler_cases; revert Hin; calls; intros Hin;
      try (by apply elem_of_nil in Hin); eexists; (split; [done|]);
      first [by left; eauto | by right; left; eauto | by right; right; eauto 10].
Qed.

(** X6. When the update of the oldest issue returns an error with a
    response, the handler answers 500 and that is the last thing it
    does: the change of summary is not logged. *)
Theorem update_error_answers_500 r release existingIssues resp response e :
  http.Method r = http.MethodPost ->
  decoder.Decode (http.Body r) Release.zero = (release, None) ->
  jira.Search jiraClient (query release) = (existingIssues, resp, None) ->
  existingIssues <> [] ->
  jira.UpdateIssue jiraClient (jira.ID (oldestOf existingIssues).1)
    (summaryUpdate (summary release)) = (Some response, Some e) ->
  status (handle r) = Some http.StatusInternalServerError /\
  last (trace (handle r))
    = Some (Ev_http_Error "Internal Server Error" http.StatusInternalServerError).
Proof.
  intros Hm Hd Hs Hne Hu. rewrite (handle_decoded _ _ _ r release Hm Hd).
  rewrite (reconcile_found _ _ _ _ _ _ Hs Hne).
  unfold updateOldest, Issue_UpdateIssue, logErrorResponse.
  destruct (oldestOf existingIssues) as [o d]. simpl in Hu.
  unfold emit, ret, bind, logger_Printf, http_Error, deref, emit.
  destruct (0 <? length d)%nat; simpl; rewrite Hu; simpl;
    destruct response as [[body [readErr|]]]; simpl; by calls.
Qed.

(** X7. When the update of the oldest issue returns no error, the
    handler answers 200 and ends with the line that logs the change,
    from the summary the oldest issue had to the summary of the
    release. *)
Theorem update_success_logs_change r release existingIssues resp response :
  http.Method r = http.MethodPost ->
  decoder.Decode (http.Body r) Release.zero = (release, None) ->
  jira.Search jiraClient (query release) = (existingIssues, resp, None) ->
  existingIssues <> [] ->
  jira.UpdateIssue jiraClient (jira.ID (oldestOf existingIssues).1)
    (summaryUpdate (summary release)) = (response, None) ->
  status (handle r) = Some http.StatusOK /\
  last (trace (handle r))
    = Some (Ev_Printf "Updated issue summary from %q to %q"
              [AStr (jira.Summary (jira.Fields (oldestOf existingIssues).1));
               AStr (summary release)]).
Proof.
  intros Hm Hd Hs Hne Hu. rewrite (handle_decoded _ _ _ r release Hm Hd).
  rewrite (reconcile_found _ _ _ _ _ _ Hs Hne).
  unfold updateOldest, Issue_UpdateIssue, logErrorResponse.
  destruct (oldestOf existingIssues) as [o d]. simpl in Hu.
  unfold emit, ret, bind, logger_Printf, http_Error, deref, emit.
  destruct (0 <? length d)%nat; simpl; rewrite Hu; simpl; by calls.
Qed.

(** X8. After a search that succeeds, the handler logs the report of
    the duplicates exactly when the search returned two or more issues:
    one issue is updated without a report. *)
Theorem duplicates_report_iff r release existingIssues resp :
  http.Method r = http.MethodPost ->
  decoder.Decode (http.Body r) Release.zero = (release, None) ->
  jira.Search jiraClient (query release) = (existingIssues, resp, None) ->
  (exists a,
     Ev_Printf
       "Ignoring the following possible duplicate issues in favor of older issue %v: %v" a
       ∈ trace (handle r)) <->
  (2 <= length existingIssues)%nat.
Proof.
  intros Hm Hd Hs. rewrite (handle_decoded _ _ _ r release Hm Hd).
  destruct existingIssues as [|x [|y l]].
  - rewrite (reconcile_empty _ _ _ _ _ Hs). split; [|simpl; lia].
    intros [a Hin]. exfalso. revert Hin. clear. handler_cases; intros Hin;
      repeat (apply elem_of_cons in Hin as [Hin|Hin]; [discriminate Hin|]);
      by apply elem_of_nil in Hin.
  - rewrite (reconcile_found _ _ _ _ _ _ Hs) by done. split; [|simpl; lia].
    intros [a Hin]. exfalso. revert Hin. clear.
    unfold updateOldest, oldestOf. simpl. handler_cases; intros Hin;
      repeat (apply elem_of_cons in Hin as [Hin|Hin]; [discriminate Hin|]);
      by apply elem_of_nil in Hin.
  - rewrite (reconcile_found _ _ _ _ _ _ Hs) by done. split; [simpl; lia|]. intros _.
    destruct (updateOldest_trace Quote jiraClient release (x :: y :: l))
      as (rest & -> & _).
    assert ((0 <? length (oldestOf (x :: y :: l)).2)%nat = true) as ->.
    { rewrite oldestOf_duplicates_length. apply Nat.ltb_lt. simpl. lia. }
    eexists. calls. apply elem_of_cons. right. apply elem_of_cons. by left.
Qed.

(** X9. For every POST that decodes, the one search of the handler asks
    for the configured status and for the project of the release as a
    label, both quoted. *)
Theorem search_query_format r release :
  http.Method r = http.MethodPost ->
  decoder.Decode (http.Body r) Release.zero = (release, None) ->
  searches (trace (handle r)) =
    ["status = " +:+ Quote (DefaultStatus config) +:+ " and labels = "
       +:+ Quote (Release.Project release)].
Proof.
  intros Hm Hd. rewrite (handle_decoded _ _ _ r release Hm Hd), reconcile_searches.
  f_equal. unfold existingIssuesQuery. simpl. unfold fmt.operand. simpl.
  rewrite append_empty_r. reflexivity.
Qed.

(** X10. Every issue the handler creates is the issue of the decoded
    release: its summary, the configured labels followed by the project
    of the release, the configured status and project key, and the type
    Task.  It carries the status and the label that the search for the
    same release asks for. *)
Theorem created_issue_content r i :
  i ∈ creates (trace (handle r)) ->
  exists release,
    decoder.Decode (http.Body r) Release.zero = (release, None) /\
    jira.Summary (jira.Fields i) = summary release /\
    jira.Labels (jira.Fields i) = AddLabels config ++ [Release.Project release] /\
    Release.Project release ∈ jira.Labels (jira.Fields i) /\
    jira.Status (jira.Fields i) = Some (DefaultStatus config) /\
    jira.Project_Key (jira.Fields i) = Project config /\
    jira.Type_Name (jira.Fields i) = "Task".
Proof.
  intros Hin.
  destruct (handle_mutations Quote config jiraClient r)
    as [[Hc _]|[(release & resp & _ & Hd & _ & Hc & _)
               |(release & existingIssues & resp & _ & _ & _ & _ & Hc & _)]];
    rewrite Hc in Hin; try by apply elem_of_nil in Hin.
  apply list_elem_of_singleton in Hin. subst. exists release. simpl.
  repeat split; [done|]. set_solver.
Qed.

End Handler.

(** * Further properties of the loop and of the decoder *)

Lemma Before_antisym t u :
  time.Before t u = false -> time.Before u t = false -> t = u.
Proof.
  destruct t as [s n], u as [s' n']. unfold time.Before. simpl. intros H1 H2.
  assert (s = s' /\ n = n') as [-> ->]; [|done].
  revert H1 H2. before.
Qed.

(** X11. The creation time of the issue the loop keeps does not depend
    on the order in which the tracker lists the issues. *)
Theorem oldest_time_order_independent (l l' : list jira.Issue) :
  l ≡ₚ l' ->
  jira.Created (jira.Fields (oldestOf l).1) = jira.Created (jira.Fields (oldestOf l').1).
Proof.
  intros Hp. destruct (decide (l = [])) as [->|Hne].
  - apply Permutation_nil_l in Hp. by subst.
  - assert (l' <> []) as Hne' by (intros ->; by apply Permutation_nil_r in Hp).
    destruct (oldestOf_spec l Hne) as (j & (Hj & Hmin & _) & _).
    destruct (oldestOf_spec l' Hne') as (j' & (Hj' & Hmin' & _) & _).
    generalize dependent (oldestOf l).1. generalize dependent (oldestOf l').1.
    intros o' Hj' Hmin' o Hj Hmin.
    apply list_elem_of_lookup_2 in Hj as Hin. apply list_elem_of_lookup_2 in Hj' as Hin'.
    rewrite Hp in Hin. rewrite <- Hp in Hin'.
    apply list_elem_of_lookup_1 in Hin as [k Hk].
    apply list_elem_of_lookup_1 in Hin' as [k' Hk'].
    apply Before_antisym; eauto.
Qed.

Lemma member_unselected st key v :
  decoder.selectsField key = false -> decoder.member st (key, v) = st.
Proof.
  destruct st as [release saved]. unfold decoder.member, decoder.selectsField.
  destruct (json.selects key "provider"), (json.selects key "project"),
    (json.selects key "version"); simpl; done.
Qed.

(** X12. The object with the three members of a release decodes to
    that release, whatever the struct held before. *)
Theorem Decode_release provider project version release :
  decoder.Decode
    (Some (json.Object
             [("provider", json.Str provider);
              ("project", json.Str project);
              ("version", json.Str version)]))
    release
  = (Release.mk provider project version, None).
Proof. destruct release. reflexivity. Qed.

(** X13. A member whose name selects no field of the release is
    ignored, wherever it stands in the object and whatever its value. *)
Theorem unknown_member_ignored members1 members2 key v release :
  decoder.selectsField key = false ->
  decoder.Decode (Some (json.Object (members1 ++ (key, v) :: members2))) release =
  decoder.Decode (Some (json.Object (members1 ++ members2))) release.
Proof.
  intros Hk. simpl. rewrite !foldl_app. cbn [foldl].
  by rewrite member_unselected.
Qed.

(** X14. When an object names the project more than once, the last
    string given is the project of the release. *)
Theorem last_project_wins members s release :
  Release.Project
    (decoder.Decode (Some (json.Object (members ++ [("project", json.Str s)]))) release).1
  = s.
Proof.
  simpl. rewrite foldl_app. cbn [foldl].
  by destruct (foldl decoder.member (release, None) members) as [release' saved].
Qed.

(** * Properties of the configuration *)

Lemma gather_lookupVar (env : gmap string string) tag def required :
  envconfig.gather env tag def required =
  match lookupVar env tag with
  | Some v => inr (Some v)
  | None =>
      if negb (String.eqb def EmptyString) then inr (Some def)
      else if required then inl ("required key " +:+ tag +:+ " missing value")
      else inr None
  end.
Proof. reflexivity. Qed.

(** X15. The configuration loads exactly when each of the five required
    variables is set, with the prefix or without it. *)
Theorem Process_succeeds_iff splitList (env : gmap string string) :
  forallb (present env) requiredTags = true <->
  exists config, envconfig.Process splitList env = inr config.
Proof.
  unfold envconfig.Process, requiredTags, present. rewrite !gather_lookupVar. simpl.
  destruct (lookupVar env "JIRA_URL"), (lookupVar env "JIRA_USER"),
    (lookupVar env "JIRA_TOKEN"), (lookupVar env "PROJECT"),
    (lookupVar env "DEFAULT_STATUS"), (lookupVar env "PORT"),
    (lookupVar env "ADD_LABELS"); simpl;
    (split; [intros H; try done; by eexists | intros [config H]; done]).
Qed.

(** X16. In a configuration that loaded, each required field holds its
    variable, the one with the prefix when both are set; the port is
    8080 when no variable sets it, and no labels are added when no
    variable sets them. *)
Theorem Process_fields splitList (env : gmap string string) config :
  envconfig.Process splitList env = inr config ->
  lookupVar env "JIRA_URL" = Some (JiraUrl config) /\
  lookupVar env "JIRA_USER" = Some (JiraUser config) /\
  lookupVar env "JIRA_TOKEN" = Some (JiraToken config) /\
  lookupVar env "PROJECT" = Some (Project config) /\
  lookupVar env "DEFAULT_STATUS" = Some (DefaultStatus config) /\
  Port config = default "8080" (lookupVar env "PORT") /\
  AddLabels config = default [] (splitList <$> lookupVar env "ADD_LABELS").
Proof.
  unfold envconfig.Process. rewrite !gather_lookupVar. simpl.
  destruct (lookupVar env "JIRA_URL"), (lookupVar env "JIRA_USER"),
    (lookupVar env "JIRA_TOKEN"), (lookupVar env "PROJECT"),
    (lookupVar env "DEFAULT_STATUS"), (lookupVar env "PORT"),
    (lookupVar env "ADD_LABELS"); simpl; intros H; by simplify_eq.
Qed.

(** * Properties of the start of the program *)

Lemma existsb_Key (projects : list startup.JiraProject) key :
  existsb (fun project => String.eqb (startup.Key project) key) projects = true <->
  key ∈ startup.Key <$> projects.
Proof.
  induction projects as [|p projects IH]; simpl.
  - split; [done|]. intros H. by apply elem_of_nil in H.
  - rewrite orb_true_iff, IH, elem_of_cons, String.eqb_eq. by split; intros [?|?]; eauto.
Qed.

Lemma existsb_Name (statuses : list startup.JiraStatus) name :
  existsb (fun status => String.eqb (startup.Name status) name) statuses = true <->
  name ∈ startup.Name <$> statuses.
Proof.
  induction statuses as [|s statuses IH]; simpl.
  - split; [done|]. intros H. by apply elem_of_nil in H.
  - rewrite orb_true_iff, IH, elem_of_cons, String.eqb_eq. by split; intros [?|?]; eauto.
Qed.

(** Unfolds [run] and splits on every answer it inspects. *)
Ltac run_cases :=
  unfold startup.run, startup.configSetup, startup.projectExists, startup.statusExists,
    startup.serveHTTP, startup.responseError, startup.deref, startup.emit, startup.ret,
    startup.bind, io.ReadAll in *;
  repeat (case_match; simplify_eq/=).

Section Start.

Variable Quote : string -> string.
Variable splitList : string -> list string.

Local Abbreviation run := (startup.run Quote splitList).

Ltac errorf :=
  unfold startup.Errorf; simpl; unfold fmt.operand; simpl;
  rewrite ?append_empty_r; reflexivity.

Lemma listen_address port : fmt.Sprintf Quote ":%v" [port] = ":" +:+ port.
Proof. simpl. unfold fmt.operand. simpl. by rewrite append_empty_r. Qed.

(** X17. The server is started only after every check passed: the
    configuration loaded, the client was created, the configured project
    is among the projects of the tracker and the configured status among
    its statuses; it listens on the configured port. *)
Theorem serves_only_after_checks w addr :
  startup.Ev_ListenAndServe addr ∈ (run w).1 ->
  exists config jiraClient projects statuses resp resp',
    envconfig.Process splitList (startup.environ w) = inr config /\
    startup.NewClient w (JiraUser config) (JiraToken config) (JiraUrl config)
      = inr jiraClient /\
    startup.GetList jiraClient = (Some projects, resp, None) /\
    Project config ∈ startup.Key <$> projects /\
    startup.GetAllStatuses jiraClient = (statuses, resp', None) /\
    DefaultStatus config ∈ startup.Name <$> statuses /\
    addr = ":" +:+ Port config.
Proof.
  intros Hin. run_cases;
    repeat (apply elem_of_cons in Hin as [Hin|Hin]; [discriminate Hin || simplify_eq|]);
    try (by apply elem_of_nil in Hin);
    match goal with
    | Hk : existsb _ _ = true, Hn : existsb _ _ = true |- _ =>
        apply existsb_Key in Hk; apply existsb_Name in Hn
    end;
    eexists _, _, _, _, _, _; split_and!; eauto; apply listen_address.
Qed.

(** X18. When the configuration does not load, the program stops with
    the error of the loading, wrapped, before it creates the client or
    calls the tracker. *)
Theorem config_error_stops_start w err :
  envconfig.Process splitList (startup.environ w) = inl err ->
  run w =
  (match startup.dotenv w with
   | Some _ => [startup.Ev_Println "No .env file found."]
   | None => []
   end,
   Done (Some ("error in config setup: " +:+ err))).
Proof.
  intros Hp. unfold startup.run, startup.configSetup, startup.emit, startup.ret,
    startup.bind. rewrite Hp.
  destruct (startup.dotenv w); simpl; repeat f_equal; errorf.
Qed.

(** X19. When the configured project is not among the projects of the
    tracker, the program stops with an error that names it: the statuses
    are not listed and the server is not started. *)
Theorem missing_project_stops_start w config jiraClient projects resp :
  envconfig.Process splitList (startup.environ w) = inr config ->
  startup.NewClient w (JiraUser config) (JiraToken config) (JiraUrl config)
    = inr jiraClient ->
  startup.GetList jiraClient = (Some projects, resp, None) ->
  Project config ∉ startup.Key <$> projects ->
  run w =
  (setupCalls w config ++ [startup.Ev_GetList],
   Done (Some ("error in check if configured project exists: project "
                 +:+ Project config +:+ " does not exist on your Jira server"))).
Proof.
  intros Hp Hn Hg Hk.
  assert (existsb (fun project => String.eqb (startup.Key project) (Project config))
            projects = false) as Hb.
  { apply not_true_is_false. by rewrite existsb_Key. }
  unfold startup.run, startup.configSetup, startup.projectExists, setupCalls,
    startup.deref, startup.emit, startup.ret, startup.bind.
  rewrite Hp.
  destruct (startup.dotenv w); simpl; rewrite Hn; simpl; rewrite Hg; simpl; rewrite Hb;
    simpl; repeat f_equal; errorf.
Qed.

(** X20. When the configured project exists and the configured status
    is not among the statuses of the tracker, the program stops with an
    error that names the status, and the server is not started. *)
Theorem missing_status_stops_start w config jiraClient projects resp statuses resp' :
  envconfig.Process splitList (startup.environ w) = inr config ->
  startup.NewClient w (JiraUser config) (JiraToken config) (JiraUrl config)
    = inr jiraClient ->
  startup.GetList jiraClient = (Some projects, resp, None) ->
  Project config ∈ startup.Key <$> projects ->
  startup.GetAllStatuses jiraClient = (statuses, resp', None) ->
  DefaultStatus config ∉ startup.Name <$> statuses ->
  run w =
  (setupCalls w config ++ [startup.Ev_GetList; startup.Ev_GetAllStatuses],
   Done (Some ("error in check if configured default status exists: status "
                 +:+ DefaultStatus config +:+ " does not exist on your Jira server"))).
Proof.
  intros Hp Hn Hg Hk Hs Hd. apply existsb_Key in Hk.
  assert (existsb (fun status => String.eqb (startup.Name status) (DefaultStatus config))
            statuses = false) as Hb.
  { apply not_true_is_false. by rewrite existsb_Name. }
  unfold startup.run, startup.configSetup, startup.projectExists, startup.statusExists,
    setupCalls, startup.deref, startup.emit, startup.ret, startup.bind.
  rewrite Hp.
  destruct (startup.dotenv w); simpl; rewrite Hn; simpl; rewrite Hg; simpl; rewrite Hk;
    simpl; rewrite Hs; simpl; rewrite Hb; simpl; repeat f_equal; errorf.
Qed.

(** X21. When every check passes, the program registers the webhook
    handler under /webhook and the root handler under /, listens on the
    configured port, and returns the error with which the server
    stops. *)
Theorem start_serves w config jiraClient projects resp statuses resp' :
  envconfig.Process splitList (startup.environ w) = inr config ->
  startup.NewClient w (JiraUser config) (JiraToken config) (JiraUrl config)
    = inr jiraClient ->
  startup.GetList jiraClient = (Some projects, resp, None) ->
  Project config ∈ startup.Key <$> projects ->
  startup.GetAllStatuses jiraClient = (statuses, resp', None) ->
  DefaultStatus config ∈ startup.Name <$> statuses ->
  run w =
  (setupCalls w config ++
     [startup.Ev_GetList; startup.Ev_GetAllStatuses;
      startup.Ev_HandleFunc "/webhook" startup.handlePostWebhook_;
      startup.Ev_HandleFunc "/" startup.handleGetRoot_;
      startup.Ev_Printf ("Listening on port %v" +:+ LF) [Port config];
      startup.Ev_ListenAndServe (":" +:+ Port config)],
   Done (Some (startup.ListenAndServe w (":" +:+ Port config)))).
Proof.
  intros Hp Hn Hg Hk Hs Hd. apply existsb_Key in Hk. apply existsb_Name in Hd.
  unfold startup.run, startup.configSetup, startup.projectExists, startup.statusExists,
    startup.serveHTTP, setupCalls, startup.deref, startup.emit, startup.ret, startup.bind.
  rewrite Hp.
  destruct (startup.dotenv w); simpl; rewrite Hn; simpl; rewrite Hg; simpl; rewrite Hk;
    simpl; rewrite Hs; simpl; rewrite Hd; simpl; unfold fmt.operand; simpl;
    by rewrite append_empty_r.
Qed.

End Start.

(** * The further properties at the sample collaborators *)

Local Abbreviation handle' := (handlePostWebhook sample.Quote sample.config).
Local Abbreviation run' := (startup.run sample.Quote sample.splitList).

Lemma other_method_not_allowed_witness :
  status (handle' (sample.tracker []) sample.get) = Some http.StatusMethodNotAllowed /\
  errors (trace (handle' (sample.tracker []) sample.get)) = [http.StatusMethodNotAllowed] /\
  searches (trace (handle' (sample.tracker []) sample.get)) = [] /\
  creates (trace (handle' (sample.tracker []) sample.get)) = [] /\
  updates (trace (handle' (sample.tracker []) sample.get)) = [].
Proof.
  apply (other_method_not_allowed sample.Quote sample.config (sample.tracker []) sample.get).
  discriminate.
Defined.

Lemma ok_means_change_accepted_witness :
  (exists release newIssue response,
     decoder.Decode (http.Body sample.post) Release.zero = (release, None) /\
     creates (trace (handle' (sample.tracker []) sample.post))
       = [JiraIssue sample.Quote sample.config release] /\
     updates (trace (handle' (sample.tracker []) sample.post)) = [] /\
     jira.Create (sample.tracker []) (JiraIssue sample.Quote sample.config release)
       = (Some newIssue, response, None)) \/
  (exists issueID data response,
     creates (trace (handle' (sample.tracker []) sample.post)) = [] /\
     updates (trace (handle' (sample.tracker []) sample.post)) = [(issueID, data)] /\
     jira.UpdateIssue (sample.tracker []) issueID data = (response, None)).
Proof.
  apply (ok_means_change_accepted sample.Quote sample.config (sample.tracker [])
           sample.post).
  reflexivity.
Defined.

Lemma server_error_means_tracker_error_witness :
  exists release e,
    decoder.Decode (http.Body sample.post) Release.zero = (release, None) /\
    ((exists existingIssues resp,
        jira.Search sample.rejecting (existingIssuesQuery sample.Quote sample.config release)
          = (existingIssues, resp, Some e)) \/
     (exists newIssue response,
        jira.Create sample.rejecting (JiraIssue sample.Quote sample.config release)
          = (newIssue, response, Some e)) \/
     (exists issueID data response,
        updates (trace (handle' sample.rejecting sample.post)) = [(issueID, data)] /\
        jira.UpdateIssue sample.rejecting issueID data = (response, Some e))).
Proof.
  apply (server_error_means_tracker_error sample.Quote sample.config sample.rejecting
           sample.post).
  vm_compute. constructor.
Defined.

Lemma update_error_answers_500_witness :
  status (handle' (sample.frozen sample.three) sample.post)
    = Some http.StatusInternalServerError /\
  last (trace (handle' (sample.frozen sample.three) sample.post))
    = Some (Ev_http_Error "Internal Server Error" http.StatusInternalServerError).
Proof.
  apply (update_error_answers_500 sample.Quote sample.config (sample.frozen sample.three)
           sample.post sample.release sample.three (Some sample.ok) sample.failed
           "request failed");
    [reflexivity | reflexivity | reflexivity | discriminate | reflexivity].
Defined.

Lemma update_success_logs_change_witness :
  status (handle' (sample.tracker sample.three) sample.post) = Some http.StatusOK /\
  last (trace (handle' (sample.tracker sample.three) sample.post))
    = Some (Ev_Printf "Updated issue summary from %q to %q"
              [AStr (jira.Summary (jira.Fields (oldestOf sample.three).1));
               AStr (IssueSummary sample.Quote sample.release)]).
Proof.
  apply (update_success_logs_change sample.Quote sample.config
           (sample.tracker sample.three) sample.post sample.release sample.three
           (Some sample.ok) (Some sample.ok));
    [reflexivity | reflexivity | reflexivity | discriminate | reflexivity].
Defined.

Lemma duplicates_report_iff_witness :
  (exists a,
     Ev_Printf
       "Ignoring the following possible duplicate issues in favor of older issue %v: %v" a
       ∈ trace (handle' (sample.tracker sample.three) sample.post)) <->
  (2 <= length sample.three)%nat.
Proof.
  apply (duplicates_report_iff sample.Quote sample.config (sample.tracker sample.three)
           sample.post sample.release sample.three (Some sample.ok));
    reflexivity.
Defined.

Lemma search_query_format_witness :
  searches (trace (handle' (sample.tracker []) sample.post)) =
    ["status = " +:+ sample.Quote (DefaultStatus sample.config) +:+ " and labels = "
       +:+ sample.Quote (Release.Project sample.release)].
Proof.
  apply (search_query_format sample.Quote sample.config (sample.tracker []) sample.post
           sample.release);
    reflexivity.
Defined.

Lemma created_issue_content_witness :
  exists release,
    decoder.Decode (http.Body sample.post) Release.zero = (release, None) /\
    jira.Summary (jira.Fields (JiraIssue sample.Quote sample.config sample.release))
      = IssueSummary sample.Quote release /\
    jira.Labels (jira.Fields (JiraIssue sample.Quote sample.config sample.release))
      = AddLabels sample.config ++ [Release.Project release] /\
    Release.Project release
      ∈ jira.Labels (jira.Fields (JiraIssue sample.Quote sample.config sample.release)) /\
    jira.Status (jira.Fields (JiraIssue sample.Quote sample.config sample.release))
      = Some (DefaultStatus sample.config) /\
    jira.Project_Key (jira.Fields (JiraIssue sample.Quote sample.config sample.release))
      = Project sample.config /\
    jira.Type_Name (jira.Fields (JiraIssue sample.Quote sample.config sample.release))
      = "Task".
Proof.
  apply (created_issue_content sample.Quote sample.config (sample.tracker []) sample.post).
  vm_compute. constructor.
Defined.

Lemma oldest_time_order_independent_witness :
  jira.Created (jira.Fields (oldestOf sample.three).1) =
  jira.Created
    (jira.Fields (oldestOf [sample.issue2; sample.issue1; sample.issue3]).1).
Proof.
  apply (oldest_time_order_independent sample.three
           [sample.issue2; sample.issue1; sample.issue3]).
  apply perm_swap.
Defined.

Lemma unknown_member_ignored_witness :
  decoder.Decode
    (Some (json.Object
             ([("project", json.Str "widget")] ++ ("id", json.Number "7")
                :: [("version", json.Str "2.0.0")])))
    Release.zero =
  decoder.Decode
    (Some (json.Object
             ([("project", json.Str "widget")] ++ [("version", json.Str "2.0.0")])))
    Release.zero.
Proof.
  apply (unknown_member_ignored [("project", json.Str "widget")]
           [("version", json.Str "2.0.0")] "id" (json.Number "7") Release.zero).
  reflexivity.
Defined.

Lemma Process_fields_witness :
  lookupVar sample.baseEnv "JIRA_URL" = Some (JiraUrl sample.config) /\
  lookupVar sample.baseEnv "JIRA_USER" = Some (JiraUser sample.config) /\
  lookupVar sample.baseEnv "JIRA_TOKEN" = Some (JiraToken sample.config) /\
  lookupVar sample.baseEnv "PROJECT" = Some (Project sample.config) /\
  lookupVar sample.baseEnv "DEFAULT_STATUS" = Some (DefaultStatus sample.config) /\
  Port sample.config = default "8080" (lookupVar sample.baseEnv "PORT") /\
  AddLabels sample.config
    = default [] (sample.splitList <$> lookupVar sample.baseEnv "ADD_LABELS").
Proof.
  apply (Process_fields sample.splitList sample.baseEnv sample.config).
  vm_compute. reflexivity.
Defined.

Lemma serves_only_after_checks_witness :
  exists config jiraClient projects statuses resp resp',
    envconfig.Process sample.splitList
      (startup.environ (sample.world sample.baseEnv ["OPS"] ["To Do"])) = inr config /\
    startup.NewClient (sample.world sample.baseEnv ["OPS"] ["To Do"])
      (JiraUser config) (JiraToken config) (JiraUrl config) = inr jiraClient /\
    startup.GetList jiraClient = (Some projects, resp, None) /\
    Project config ∈ startup.Key <$> projects /\
    startup.GetAllStatuses jiraClient = (statuses, resp', None) /\
    DefaultStatus config ∈ startup.Name <$> statuses /\
    ":8080" = ":" +:+ Port config.
Proof.
  apply (serves_only_after_checks sample.Quote sample.splitList
           (sample.world sample.baseEnv ["OPS"] ["To Do"]) ":8080").
  vm_compute. repeat constructor.
Defined.

Lemma config_error_stops_start_witness :
  run' (sample.world ∅ ["OPS"] ["To Do"]) =
  ([startup.Ev_Println "No .env file found."],
   Done (Some ("error in config setup: " +:+ "required key JIRA_URL missing value"))).
Proof.
  apply (config_error_stops_start sample.Quote sample.splitList
           (sample.world ∅ ["OPS"] ["To Do"]) "required key JIRA_URL missing value").
  vm_compute. reflexivity.
Defined.

Lemma missing_project_stops_start_witness :
  run' (sample.world sample.baseEnv ["DEV"] ["To Do"]) =
  (setupCalls (sample.world sample.baseEnv ["DEV"] ["To Do"]) sample.config
     ++ [startup.Ev_GetList],
   Done (Some ("error in check if configured project exists: project "
                 +:+ Project sample.config +:+ " does not exist on your Jira server"))).
Proof.
  apply (missing_project_stops_start sample.Quote sample.splitList
           (sample.world sample.baseEnv ["DEV"] ["To Do"]) sample.config
           (sample.listing ["DEV"] ["To Do"]) (startup.mkProject <$> ["DEV"])
           (Some sample.ok));
    [vm_compute; reflexivity | reflexivity | reflexivity |].
  simpl. intros Hin. apply list_elem_of_singleton in Hin. discriminate Hin.
Defined.

Lemma missing_status_stops_start_witness :
  run' (sample.world sample.baseEnv ["OPS"] ["Done"]) =
  (setupCalls (sample.world sample.baseEnv ["OPS"] ["Done"]) sample.config
     ++ [startup.Ev_GetList; startup.Ev_GetAllStatuses],
   Done (Some ("error in check if configured default status exists: status "
                 +:+ DefaultStatus sample.config
                 +:+ " does not exist on your Jira server"))).
Proof.
  apply (missing_status_stops_start sample.Quote sample.splitList
           (sample.world sample.baseEnv ["OPS"] ["Done"]) sample.config
           (sample.listing ["OPS"] ["Done"]) (startup.mkProject <$> ["OPS"])
           (Some sample.ok) (startup.mkStatus <$> ["Done"]) (Some sample.ok));
    [vm_compute; reflexivity | reflexivity | reflexivity | simpl; constructor
    | reflexivity |].
  simpl. intros Hin. apply list_elem_of_singleton in Hin. discriminate Hin.
Defined.

Lemma start_serves_witness :
  run' (sample.world sample.baseEnv ["OPS"] ["To Do"]) =
  (setupCalls (sample.world sample.baseEnv ["OPS"] ["To Do"]) sample.config ++
     [startup.Ev_GetList; startup.Ev_GetAllStatuses;
      startup.Ev_HandleFunc "/webhook" startup.handlePostWebhook_;
      startup.Ev_HandleFunc "/" startup.handleGetRoot_;
      startup.Ev_Printf ("Listening on port %v" +:+ LF) [Port sample.config];
      startup.Ev_ListenAndServe (":" +:+ Port sample.config)],
   Done (Some (startup.ListenAndServe (sample.world sample.baseEnv ["OPS"] ["To Do"])
                 (":" +:+ Port sample.config)))).
Proof.
  apply (start_serves sample.Quote sample.splitList
           (sample.world sample.baseEnv ["OPS"] ["To Do"]) sample.config
           (sample.listing ["OPS"] ["To Do"]) (startup.mkProject <$> ["OPS"])
           (Some sample.ok) (startup.mkStatus <$> ["To Do"]) (Some sample.ok));
    [vm_compute; reflexivity | reflexivity | reflexivity | simpl; constructor
    | reflexivity | simpl; constructor].
Defined.

(** * The handler on issues with the pointer to the fields *)

Lemma bind_done {A B} (a : A) (k : A -> Handler B) : bind ([], Done a) k = k a.
Proof. unfold bind. by destruct (k a). Qed.

Lemma bind_panic {A B} t msg (k : A -> Handler B) : bind (t, Panic msg) k = (t, Panic msg).
Proof. done. Qed.

(** A turn of the loop after the first one. *)
Lemma oldestStepRaw_succ o d i x :
  oldestStepRaw (o, d) (S i) x =
  match raw.Fields x, raw.Fields o with
  | Some current, Some oldest =>
      ([], Done (if time.Before (jira.Created current) (jira.Created oldest)
                 then (x, d ++ [raw.Key o])
                 else (o, d ++ [raw.Key x])))
  | _, _ => ([], Panic "invalid memory address or nil pointer dereference")
  end.
Proof.
  unfold oldestStepRaw. simpl.
  destruct (raw.Fields x), (raw.Fields o); try done.
  simpl. by destruct (time.Before _ _).
Qed.

(** After its first turn the loop returns without a call, keeping the
    oldest issue so far or one of the issues it went through, or it
    panics, and then on an issue without fields. *)
Lemma rangeM_oldestStepRaw xs : forall i o d,
  i <> 0%nat ->
  (exists o' d',
     rangeM oldestStepRaw i xs (o, d) = ([], Done (o', d')) /\ (o' = o \/ o' ∈ xs)) \/
  (exists msg,
     rangeM oldestStepRaw i xs (o, d) = ([], Panic msg) /\
     (raw.Fields o = None \/ exists x, x ∈ xs /\ raw.Fields x = None)).
Proof.
  induction xs as [|x xs IH]; intros i o d Hi.
  - left. exists o, d. split; [done|by left].
  - destruct i as [|i]; [done|]. cbn [rangeM]. rewrite oldestStepRaw_succ.
    destruct (raw.Fields x) as [current|] eqn:Hx.
    2:{ right. eexists. split; [reflexivity|]. right. exists x. split; [by left|done]. }
    destruct (raw.Fields o) as [oldest|] eqn:Ho.
    2:{ right. eexists. split; [reflexivity|]. by left. }
    rewrite bind_done.
    destruct (time.Before _ _).
    + destruct (IH (S (S i)) x (d ++ [raw.Key o])) as [(o' & d' & -> & Hin)|(msg & -> & Hnil)];
        [done| |].
      * left. exists o', d'. split; [done|]. right. destruct Hin as [->|Hin]; [by left|by right].
      * right. exists msg. split; [done|]. right.
        destruct Hnil as [Hnil|(y & Hy & Hnil)]; [congruence|]. exists y. split; [by right|done].
    + destruct (IH (S (S i)) o (d ++ [raw.Key x])) as [(o' & d' & -> & Hin)|(msg & -> & Hnil)];
        [done| |].
      * left. exists o', d'. split; [done|]. destruct Hin as [->|Hin]; [by left|by right; right].
      * right. exists msg. split; [done|].
        destruct Hnil as [Hnil|(y & Hy & Hnil)]; [congruence|]. right. exists y.
        split; [by right|done].
Qed.

Lemma oldestOfRaw_cases existingIssues :
  existingIssues <> [] ->
  (exists o d, oldestOfRaw existingIssues = ([], Done (o, d)) /\ o ∈ existingIssues) \/
  (exists msg x,
     oldestOfRaw existingIssues = ([], Panic msg) /\
     x ∈ existingIssues /\ raw.Fields x = None).
Proof.
  destruct existingIssues as [|x xs]; [done|]. intros _.
  unfold oldestOfRaw. cbn [rangeM].
  change (oldestStepRaw (raw.zero, []) 0 x)
    with (([], Done (x, [])) : Handler (raw.Issue * list string)).
  rewrite bind_done.
  destruct (rangeM_oldestStepRaw xs 1 x (@nil string)) as [(o & d & -> & Hin)|(msg & -> & Hnil)];
    [done| |].
  - left. exists o, d. split; [done|]. destruct Hin as [->|Hin]; [by left|by right].
  - right. destruct Hnil as [Hnil|(y & Hy & Hnil)].
    + exists msg, x. split; [done|]. split; [by left|done].
    + exists msg, y. split; [done|]. split; [by right|done].
Qed.

Section RawHandler.

Variable Quote : string -> string.
Variable config : Config.
Variable jiraClient : jira.Client.
Variable Search : string -> list raw.Issue * option jira.Response * option error.

Local Abbreviation handleRaw := (handlePostWebhookRaw Quote config jiraClient Search).
Local Abbreviation query := (existingIssuesQuery Quote config).

Lemma createIssue_panics release msg :
  outcome (createIssue Quote config jiraClient release) = Panic msg ->
  (exists newIssue e,
     jira.Create jiraClient (JiraIssue Quote config release) = (newIssue, None, Some e)) \/
  (exists response err,
     jira.Create jiraClient (JiraIssue Quote config release) = (None, response, err)).
Proof.
  intros Hp. handler_cases; first [by left; eauto | by right; eauto].
Qed.

Lemma updateOldestRaw_panics release existingIssues msg :
  existingIssues <> [] ->
  outcome (updateOldestRaw Quote jiraClient release existingIssues) = Panic msg ->
  (exists issue, issue ∈ existingIssues /\ raw.Fields issue = None) \/
  (exists issueID data e,
     updates (trace (updateOldestRaw Quote jiraClient release existingIssues))
       = [(issueID, data)] /\
     jira.UpdateIssue jiraClient issueID data = (None, Some e)).
Proof.
  intros Hne. unfold updateOldestRaw.
  destruct (oldestOfRaw_cases existingIssues Hne)
    as [(o & d & -> & Hin)|(msg' & x & -> & Hin & Hnil)].
  - rewrite bind_done. intros Hp.
    destruct (raw.Fields o) as [fields|] eqn:Ho; [|left; by exists o].
    right. revert Hp. handler_cases; intros Hp; simplify_eq; calls; eauto 10.
  - intros _. left. by exists x.
Qed.


Lemma reconcileRaw_bind release :
  reconcileRaw Quote config jiraClient Search release =
  bind ([Ev_Search (query release)], Done (Search (query release)))
    (fun x =>
       let '(existingIssues, resp, err) := x in
       match err with
       | Some e =>
           logErrorResponse "error response from Jira when searching previous issues" e resp
             (fun body _ => AStr body) AStr ;;;
           http_Error (http.StatusText http.StatusInternalServerError)
             http.StatusInternalServerError
       | None =>
           if (length existingIssues =? 0)%nat
           then createIssue Quote config jiraClient release
           else updateOldestRaw Quote jiraClient release existingIssues
       end).
Proof. reflexivity. Qed.

(** X5. The handler panics only on a nil pointer of the client: an
    error that comes without a response, a search result with an issue
    without fields, or a creation that hands no issue back. *)
Theorem panics_only_on_nil r msg :
  outcome (handleRaw r) = Panic msg ->
  exists release,
    decoder.Decode (http.Body r) Release.zero = (release, None) /\
    ((exists existingIssues e,
        Search (query release) = (existingIssues, None, Some e)) \/
     (exists existingIssues resp issue,
        Search (query release) = (existingIssues, resp, None) /\
        issue ∈ existingIssues /\ raw.Fields issue = None) \/
     (exists newIssue e,
        jira.Create jiraClient (JiraIssue Quote config release) = (newIssue, None, Some e)) \/
     (exists response err,
        jira.Create jiraClient (JiraIssue Quote config release) = (None, response, err)) \/
     (exists issueID data e,
        updates (trace (handleRaw r)) = [(issueID, data)] /\
        jira.UpdateIssue jiraClient issueID data = (None, Some e))).
Proof.
  unfold handlePostWebhookRaw.
  destruct (negb _); [done|].
  destruct (decoder.Decode (http.Body r) Release.zero) as [release [e|]]; [done|].
  intros Hp. exists release. split; [done|]. revert Hp. rewrite reconcileRaw_bind.
  destruct (Search (query release)) as [[existingIssues resp] [e|]] eqn:Hs.
  - destruct resp as [response|]; [|intros _; left; eauto].
    intros Hp. exfalso. revert Hp. clear. by handler_cases.
  - unfold bind at 1. destruct existingIssues as [|x xs]; simpl length; simpl Nat.eqb; cbv iota.
    + destruct (createIssue _ _ _ _) as [t o] eqn:Hc. intros Hp. simpl in Hp. subst.
      destruct (createIssue_panics release msg) as [H|H]; [by rewrite Hc| |].
      * right; right; left. done.
      * right; right; right; left. done.
    + destruct (updateOldestRaw _ _ _ _) as [t o] eqn:Hu. intros Hp. simpl in Hp. subst.
      destruct (updateOldestRaw_panics release (x :: xs) msg) as [(issue & Hin & Hnil)|H];
        [done|by rewrite Hu| |].
      * right; left. eauto 10.
      * right; right; right; right. rewrite Hu in H.
        destruct H as (issueID & data & e & Hup & Hui). exists issueID, data, e.
        split; [|done]. revert Hup. calls. rewrite Hu. by calls.
Qed.

End RawHandler.

(** On issues that carry their fields the loop with the pointer is the
    loop above, and so is the handler. *)
Lemma rangeM_ofIssue l : forall i o d,
  i <> 0%nat ->
  rangeM oldestStepRaw i (raw.ofIssue <$> l) (raw.ofIssue o, d) =
  ([], Done (raw.ofIssue (range oldestStep i l (o, d)).1, (range oldestStep i l (o, d)).2)).
Proof.
  induction l as [|x l IH]; intros i o d Hi; [done|].
  destruct i as [|i]; [done|]. cbn [fmap list_fmap rangeM range].
  rewrite oldestStepRaw_succ. cbn [raw.Fields raw.ofIssue raw.Key]. rewrite bind_done.
  cbn [oldestStep Nat.eqb]. cbv zeta.
  destruct (time.Before _ _); by rewrite IH.
Qed.

Lemma oldestOfRaw_ofIssue x l :
  oldestOfRaw (raw.ofIssue <$> x :: l) =
  ([], Done (raw.ofIssue (oldestOf (x :: l)).1, (oldestOf (x :: l)).2)).
Proof.
  unfold oldestOfRaw, oldestOf. cbn [fmap list_fmap rangeM range].
  change (oldestStepRaw (raw.zero, []) 0 (raw.ofIssue x))
    with (([], Done (raw.ofIssue x, [])) : Handler (raw.Issue * list string)).
  rewrite bind_done. by rewrite rangeM_ofIssue.
Qed.

Lemma updateOldestRaw_ofIssue Quote jiraClient release x l :
  updateOldestRaw Quote jiraClient release (raw.ofIssue <$> x :: l) =
  updateOldest Quote jiraClient release (x :: l).
Proof.
  unfold updateOldestRaw, updateOldest. rewrite oldestOfRaw_ofIssue, bind_done.
  destruct (oldestOf (x :: l)) as [o d]. cbn [fst snd raw.Fields raw.ofIssue raw.Key raw.ID deref].
  change (@ret jira.IssueFields) with (fun a : jira.IssueFields => (([], Done a) : Handler _)).
  cbv beta.
  destruct (0 <? length d)%nat; by rewrite bind_done.
Qed.

Lemma reconcile_bind Quote config jiraClient release :
  reconcile Quote config jiraClient release =
  bind ([Ev_Search (existingIssuesQuery Quote config release)],
        Done (jira.Search jiraClient (existingIssuesQuery Quote config release)))
    (fun x =>
       let '(existingIssues, resp, err) := x in
       match err with
       | Some e =>
           logErrorResponse "error response from Jira when searching previous issues" e resp
             (fun body _ => AStr body) AStr ;;;
           http_Error (http.StatusText http.StatusInternalServerError)
             http.StatusInternalServerError
       | None =>
           if (length existingIssues =? 0)%nat
           then createIssue Quote config jiraClient release
           else updateOldest Quote jiraClient release existingIssues
       end).
Proof. reflexivity. Qed.

Lemma handlePostWebhookRaw_ofIssue Quote config jiraClient r :
  handlePostWebhookRaw Quote config jiraClient (searchOf jiraClient) r =
  handlePostWebhook Quote config jiraClient r.
Proof.
  unfold handlePostWebhookRaw, handlePostWebhook.
  destruct (negb _); [done|].
  destruct (decoder.Decode (http.Body r) Release.zero) as [release [e|]]; [done|].
  rewrite reconcileRaw_bind, reconcile_bind. unfold searchOf.
  destruct (jira.Search jiraClient _) as [[existingIssues resp] [e|]]; [done|].
  destruct existingIssues as [|x l]; [done|].
  unfold bind at 1 3. rewrite length_fmap. cbn [length Nat.eqb].
  by rewrite updateOldestRaw_ofIssue.
Qed.

Lemma panics_only_on_nil_witness :
  exists release,
    decoder.Decode (http.Body sample.post) Release.zero = (release, None) /\
    ((exists existingIssues e,
        sample.searching [raw.ofIssue sample.issue1; sample.fieldless]
          (existingIssuesQuery sample.Quote sample.config release)
          = (existingIssues, None, Some e)) \/
     (exists existingIssues resp issue,
        sample.searching [raw.ofIssue sample.issue1; sample.fieldless]
          (existingIssuesQuery sample.Quote sample.config release)
          = (existingIssues, resp, None) /\
        issue ∈ existingIssues /\ raw.Fields issue = None) \/
     (exists newIssue e,
        jira.Create (sample.tracker []) (JiraIssue sample.Quote sample.config release)
          = (newIssue, None, Some e)) \/
     (exists response err,
        jira.Create (sample.tracker []) (JiraIssue sample.Quote sample.config release)
          = (None, response, err)) \/
     (exists issueID data e,
        updates (trace (handlePostWebhookRaw sample.Quote sample.config (sample.tracker [])
                          (sample.searching [raw.ofIssue sample.issue1; sample.fieldless])
                          sample.post))
          = [(issueID, data)] /\
        jira.UpdateIssue (sample.tracker []) issueID data = (None, Some e))).
Proof.
  apply (panics_only_on_nil sample.Quote sample.config (sample.tracker [])
           (sample.searching [raw.ofIssue sample.issue1; sample.fieldless]) sample.post
           "invalid memory address or nil pointer dereference").
  reflexivity.
Defined.
